(** * Subscription service: cost-period model, validation and orchestration

    A shallow embedding of the domain layer ([models]), the helpers of
    [pkg/utils], the typed errors of [pkg/apperror], the SQL of the
    PostgreSQL repository and the orchestration of [internal/service],
    followed by the properties the specification states about them.

    Conventions.
    - Go's [int] is the 64-bit two's complement integer: values are [Z],
      and the [int] arithmetic of the source goes through [Int.add],
      [Int.sub] and [Int.mul], which wrap around.
    - A Go [string] is its byte sequence ([String.string]); [len] is
      [String.length].
    - [time.Time] is an instant (nanoseconds since the Unix epoch) together
      with the offset of its location; locations are fixed-offset zones and
      [time.UTC] is offset 0.  The monotonic clock reading is not modelled.
    - A nil pointer is [None]; [error] values are [option error] with [None]
      for [nil]; a [(T, error)] result is [Ok v] or [Err e].
    - Calls that leave the process (the repository, [time.Now], [uuid.New])
      are operations of a small free monad [Prog]; a handler interprets them
      over a world, and running a program also yields the list of the
      operations it performed.  Logging and the [context.Context] argument
      carry no result and are left out. *)

From Stdlib Require Import ZArith Lia List Ascii String Bool.
From stdpp Require Import base strings gmap list.

Local Open Scope string_scope.
Local Open Scope Z_scope.

(** ** Go's [int] *)
Module Int.

Definition min_int : Z := - 2 ^ 63.
Definition max_int : Z := 2 ^ 63 - 1.

Definition in_range (z : Z) : bool := (min_int <=? z) && (z <=? max_int).

(** Two's complement wrap-around of a mathematical integer. *)
Definition wrap (z : Z) : Z := (z + 2 ^ 63) mod 2 ^ 64 - 2 ^ 63.

Definition add (a b : Z) : Z := wrap (a + b).
Definition sub (a b : Z) : Z := wrap (a - b).
Definition mul (a b : Z) : Z := wrap (a * b).

End Int.

(** ** Results of fallible calls *)
Inductive result (E A : Type) : Type :=
| Ok (a : A)
| Err (e : E).
Arguments Ok {E A} a.
Arguments Err {E A} e.

(** ** Programs over external operations

    [E X] is the type of the operations that return an [X].  A program
    either returns, or performs an operation and continues with its
    result. *)
Inductive Prog (E : Type -> Type) (A : Type) : Type :=
| Ret (a : A)
| Vis {X : Type} (e : E X) (k : X -> Prog E A).
Arguments Ret {E A} a.
Arguments Vis {E A X} e k.

Fixpoint bind {E A B} (m : Prog E A) (f : A -> Prog E B) : Prog E B :=
  match m with
  | Ret a => f a
  | Vis e k => Vis e (fun x => bind (k x) f)
  end.

Definition call {E X} (e : E X) : Prog E X := Vis e Ret.

Notation "x <- m ;; k" := (bind m (fun x => k))
  (at level 100, m at next level, right associativity).

(** Go's [v, err := f(); if err != nil { return nil, err }]. *)
Notation "x <-? m ;; k" :=
  (bind m (fun r => match r with Ok x => k | Err e => Ret (Err e) end))
  (at level 100, m at next level, right associativity).

(** An operation that was performed, with its arguments. *)
Inductive Call (E : Type -> Type) : Type :=
| Called {X : Type} (e : E X).
Arguments Called {E X} e.

(** A handler gives every operation its result and its effect on a world
    of type [W]. *)
Definition handler (E : Type -> Type) (W : Type) : Type :=
  forall X, E X -> W -> X * W.

(** Runs a program: its value, the final world and the operations
    performed, in order. *)
Fixpoint run {E W A} (h : handler E W) (m : Prog E A) (w : W)
  : A * W * list (Call E) :=
  match m with
  | Ret a => (a, w, [])
  | Vis e k =>
      let '(x, w') := h _ e w in
      let '(a, w'', tr) := run h (k x) w' in
      (a, w'', Called e :: tr)
  end.

(** ** Package [time] (the part the service uses) *)
Module time.

Record Time : Type := mkTime {
  unixNano : Z;   (* the instant *)
  zone : Z        (* offset of the location, seconds east of UTC *)
}.

Definition UTC : Z := 0.
Definition Nanosecond : Z := 1.

Definition Before (t u : Time) : bool := unixNano t <? unixNano u.
Definition After (t u : Time) : bool := unixNano u <? unixNano t.
Definition Add (t : Time) (d : Z) : Time := mkTime (unixNano t + d) (zone t).
(** [t.Sub(u)] is a [Duration]: it saturates at the ends of [int64]. *)
Definition Sub (t u : Time) : Z :=
  Z.max Int.min_int (Z.min Int.max_int (unixNano t - unixNano u)).

(** Days since 1970-01-01 of a proleptic Gregorian date. *)
Definition days_from_civil (y m d : Z) : Z :=
  let y' := if m <=? 2 then y - 1 else y in
  let era := y' / 400 in
  let yoe := y' - era * 400 in
  let doy := (153 * (if 2 <? m then m - 3 else m + 9) + 2) / 5 + d - 1 in
  let doe := yoe * 365 + yoe / 4 - yoe / 100 + doy in
  era * 146097 + doe - 719468.

(** Year, month and day of a day count since 1970-01-01. *)
Definition civil_from_days (days : Z) : Z * Z * Z :=
  let z := days + 719468 in
  let era := z / 146097 in
  let doe := z - era * 146097 in
  let yoe := (doe - doe / 1460 + doe / 36524 - doe / 146096) / 365 in
  let doy := doe - (365 * yoe + yoe / 4 - yoe / 100) in
  let mp := (5 * doy + 2) / 153 in
  let d := doy - (153 * mp + 2) / 5 + 1 in
  let m := if mp <? 10 then mp + 3 else mp - 9 in
  let y := yoe + era * 400 in
  (if m <=? 2 then y + 1 else y, m, d).

(** Local day count of an instant in its own location. *)
Definition local_days (t : Time) : Z :=
  (unixNano t / 1000000000 + zone t) / 86400.

Definition Year (t : Time) : Z := fst (fst (civil_from_days (local_days t))).
Definition Month (t : Time) : Z := snd (fst (civil_from_days (local_days t))).
Definition Location (t : Time) : Z := zone t.

(** [time.Date]: out-of-range months, days, hours, ... are normalised by
    carrying into the next unit, then the zone offset is taken off. *)
Definition Date (year month day hour min sec nsec : Z) (loc : Z) : Time :=
  let m0 := month - 1 in
  let year' := year + m0 / 12 in
  let month' := m0 mod 12 + 1 in
  let days := days_from_civil year' month' 1 + (day - 1) in
  let secs := days * 86400 + hour * 3600 + min * 60 + sec - loc in
  mkTime (secs * 1000000000 + nsec) loc.

(** [time.Now] reads the wall clock: an operation of the environment. *)
Class Clock (E : Type -> Type) := clock_now : E Time.

Definition Now {E} `{Clock E} : Prog E Time := call clock_now.

End time.

(** ** Package [strings] and decimal formatting *)
Module strings.

Definition byte_eqb (a b : ascii) : bool := Ascii.eqb a b.

Fixpoint HasPrefix (s prefix : string) : bool :=
  match prefix, s with
  | EmptyString, _ => true
  | String p prefix', String c s' => byte_eqb p c && HasPrefix s' prefix'
  | String _ _, EmptyString => false
  end.

Fixpoint rev_append (acc s : string) : string :=
  match acc with
  | EmptyString => s
  | String c acc' => rev_append acc' (String c s)
  end.

Definition rev (s : string) : string := rev_append s EmptyString.

(** The white space of [unicode.IsSpace], as UTF-8 byte sequences:
    the six ASCII characters, U+0085, U+00A0, U+1680, U+2000..U+200A,
    U+2028, U+2029, U+202F, U+205F and U+3000. *)
Definition space_runes : list string :=
  map (fun l => string_of_list_ascii (map (fun n => ascii_of_nat n) l))
    [ [9]; [10]; [11]; [12]; [13]; [32];
      [194; 133]; [194; 160]; [225; 154; 128];
      [226; 128; 128]; [226; 128; 129]; [226; 128; 130]; [226; 128; 131];
      [226; 128; 132]; [226; 128; 133]; [226; 128; 134]; [226; 128; 135];
      [226; 128; 136]; [226; 128; 137]; [226; 128; 138];
      [226; 128; 168]; [226; 128; 169]; [226; 128; 175];
      [226; 129; 159]; [227; 128; 128] ]%nat.

(** Length of the white-space rune [s] starts with, if any. *)
Definition leading_space (runes : list string) (s : string) : option nat :=
  match filter (fun r => HasPrefix s r = true) runes with
  | r :: _ => Some (String.length r)
  | [] => None
  end.

Fixpoint trim_left (runes : list string) (skip : nat) (s : string) : string :=
  match s with
  | EmptyString => EmptyString
  | String _ s' =>
      match skip with
      | S k => trim_left runes k s'
      | O =>
          match leading_space runes s with
          | Some n => trim_left runes (Nat.pred n) s'
          | None => s
          end
      end
  end.

Definition TrimLeftSpace (s : string) : string := trim_left space_runes 0 s.

(** Trailing white space is found on the reversed string, against the
    reversed byte sequences. *)
Definition TrimRightSpace (s : string) : string :=
  rev (trim_left (map rev space_runes) 0 (rev s)).

Definition TrimSpace (s : string) : string := TrimRightSpace (TrimLeftSpace s).

(** [strings.Split] for a non-empty separator: the pieces between the
    successive non-overlapping occurrences of [sep], scanning from the left.
    [skip] counts the bytes of an occurrence still to be passed over, [acc]
    is the current piece, reversed. *)
Fixpoint split_go (sep : string) (skip : nat) (acc : string) (s : string)
  : list string :=
  match s with
  | EmptyString => [rev acc]
  | String c s' =>
      match skip with
      | S k => split_go sep k acc s'
      | O =>
          if HasPrefix s sep
          then rev acc :: split_go sep (Nat.pred (String.length sep)) EmptyString s'
          else split_go sep O (String c acc) s'
      end
  end.

Definition Split (s sep : string) : list string := split_go sep 0 EmptyString s.

(** [strings.Join]. *)
Fixpoint Join (elems : list string) (sep : string) : string :=
  match elems with
  | [] => EmptyString
  | [e] => e
  | e :: rest => (e ++ sep ++ Join rest sep)%string
  end.

End strings.

Module strconv.

Definition digit_of (c : ascii) : option Z :=
  let n := Z.of_nat (nat_of_ascii c) in
  if (48 <=? n) && (n <=? 57) then Some (n - 48) else None.

(** Value of a non-empty run of decimal digits, [acc] being the value read
    so far. *)
Fixpoint digits (acc : Z) (s : string) : option Z :=
  match s with
  | EmptyString => Some acc
  | String c s' =>
      match digit_of c with
      | Some d => digits (acc * 10 + d) s'
      | None => None
      end
  end.

Definition unsigned (s : string) : option Z :=
  match s with
  | EmptyString => None
  | _ => digits 0 s
  end.

(** [strconv.Atoi]: an optional sign, then at least one decimal digit and
    nothing else; a value outside [int] is a range error.  [None] stands for
    the non-nil [*NumError]; callers only test it against [nil]. *)
Definition Atoi (s : string) : option Z :=
  let signed :=
    match s with
    | String "-" s' => option_map Z.opp (unsigned s')
    | String "+" s' => unsigned s'
    | _ => unsigned s
    end in
  match signed with
  | Some n => if Int.in_range n then Some n else None
  | None => None
  end.

(** Decimal digits of a natural number, most significant first. *)
Fixpoint itoa_go (fuel : nat) (n : Z) (acc : string) : string :=
  match fuel with
  | O => acc
  | S fuel' =>
      let acc' := String (ascii_of_nat (Z.to_nat (48 + n mod 10))) acc in
      if n / 10 =? 0 then acc' else itoa_go fuel' (n / 10) acc'
  end.

Definition utoa (n : Z) : string := itoa_go (S (Z.to_nat (Z.log2 n))) n EmptyString.

(** [strconv.Itoa], also what [fmt.Sprintf] prints for [%d] and for [%v]
    of an [int]. *)
Definition Itoa (n : Z) : string :=
  if n <? 0 then String "-" (utoa (- n)) else utoa n.

Fixpoint zeros (n : nat) : string :=
  match n with
  | O => EmptyString
  | S n' => String "0" (zeros n')
  end.

(** [appendInt] of package [time]: at least [width] digits, zero padded,
    after the sign. *)
Definition pad (n : Z) (width : nat) : string :=
  let body := utoa (Z.abs n) in
  let padded := zeros (width - String.length body) ++ body in
  if n <? 0 then String "-" padded else padded.

End strconv.

(** ** Package [github.com/google/uuid] *)
Module uuid.

(** A UUID is its 16 bytes, read as one big-endian number. *)
Definition UUID : Type := N.

Definition Nil : UUID := 0%N.

Definition hex_digit (n : N) : ascii :=
  ascii_of_N (if (n <? 10)%N then 48 + n else 87 + n)%N.

(** The [digits] lowest hexadecimal digits of [n], most significant first. *)
Fixpoint hex (digits : nat) (n : N) (acc : string) : string :=
  match digits with
  | O => acc
  | S d => hex d (N.shiftr n 4) (String (hex_digit (N.land n 15)) acc)
  end.

Definition field (u : UUID) (lo : N) (digits : nat) : string :=
  hex digits (N.shiftr u lo) EmptyString.

(** The canonical form xxxxxxxx-xxxx-xxxx-xxxx-xxxxxxxxxxxx. *)
Definition String (u : UUID) : string :=
  (field u 96 8 ++ "-" ++ field u 80 4 ++ "-" ++ field u 64 4 ++ "-"
   ++ field u 48 4 ++ "-" ++ field u 0 12)%string.

(** [uuid.New] draws a random UUID: an operation of the environment. *)
Class Random (E : Type -> Type) := random_uuid : E UUID.

Definition New {E} `{Random E} : Prog E UUID := call random_uuid.

End uuid.

(** ** Package [pkg/apperror] *)
Module apperror.

(** Go's [error] values that occur in the service: a plain message
    ([errors.New], [fmt.Errorf]) or an [*AppError]. *)
#[local] Set Warnings "-register-all".
Inductive error : Type :=
| errorString (msg : string)
| AppError (code message : string) (details : gmap string string)
           (cause : option error) (httpStatus : Z).

Definition CodeNotFound := "NOT_FOUND".
Definition CodeInvalidInput := "INVALID_INPUT".
Definition CodeValidationFailed := "VALIDATION_FAILED".
Definition CodeUnauthorized := "UNAUTHORIZED".
Definition CodeForbidden := "FORBIDDEN".
Definition CodeConflict := "CONFLICT".
Definition CodeTooManyRequests := "TOO_MANY_REQUESTS".
Definition CodeInternalError := "INTERNAL_ERROR".
Definition CodeDatabaseError := "DATABASE_ERROR".
Definition CodeExternalServiceError := "EXTERNAL_SERVICE_ERROR".
Definition CodeServiceUnavailable := "SERVICE_UNAVAILABLE".

Definition CodeSubscriptionNotFound := "SUBSCRIPTION_NOT_FOUND".
Definition CodeSubscriptionExists := "SUBSCRIPTION_EXISTS".
Definition CodeInvalidSubscriptionData := "INVALID_SUBSCRIPTION_DATA".
Definition CodeInvalidDateFormat := "INVALID_DATE_FORMAT".
Definition CodeInvalidDateRange := "INVALID_DATE_RANGE".
Definition CodeInvalidUserID := "INVALID_USER_ID".
Definition CodeInvalidPrice := "INVALID_PRICE".
Definition CodeInvalidServiceName := "INVALID_SERVICE_NAME".
Definition CodeInvalidPaginationParams := "INVALID_PAGINATION_PARAMS".
Definition CodeInvalidFilterParams := "INVALID_FILTER_PARAMS".

Definition ErrorMessages : gmap string string :=
  list_to_map
    [ (CodeNotFound, "Resource not found");
      (CodeInvalidInput, "Invalid input provided");
      (CodeValidationFailed, "Validation failed");
      (CodeUnauthorized, "Unauthorized access");
      (CodeForbidden, "Access forbidden");
      (CodeConflict, "Resource conflict");
      (CodeTooManyRequests, "Too many requests");
      (CodeInternalError, "Internal server error");
      (CodeDatabaseError, "Database operation failed");
      (CodeExternalServiceError, "External service error");
      (CodeServiceUnavailable, "Service temporarily unavailable");
      (CodeSubscriptionNotFound, "Subscription not found");
      (CodeSubscriptionExists, "Subscription already exists");
      (CodeInvalidSubscriptionData, "Invalid subscription data");
      (CodeInvalidDateFormat, "Invalid date format, expected MM-YYYY");
      (CodeInvalidDateRange, "Invalid date range");
      (CodeInvalidUserID, "Invalid user ID format");
      (CodeInvalidPrice, "Price must be a positive integer");
      (CodeInvalidServiceName, "Service name cannot be empty");
      (CodeInvalidPaginationParams, "Invalid pagination parameters");
      (CodeInvalidFilterParams, "Invalid filter parameters") ].

(** Indexing a Go map at a missing key gives the zero value. *)
Definition message_of (code : string) : string :=
  default EmptyString (ErrorMessages !! code).

Definition getDefaultHTTPStatus (code : string) : Z :=
  if decide (code = CodeNotFound) then 404
  else if decide (code = CodeInvalidInput \/ code = CodeValidationFailed) then 400
  else if decide (code = CodeUnauthorized) then 401
  else if decide (code = CodeForbidden) then 403
  else if decide (code = CodeConflict) then 409
  else if decide (code = CodeTooManyRequests) then 429
  else if decide (code = CodeInternalError \/ code = CodeDatabaseError
                  \/ code = CodeExternalServiceError) then 500
  else if decide (code = CodeServiceUnavailable) then 503
  else 500.

Definition New (code message : string) : error :=
  AppError code message ∅ None (getDefaultHTTPStatus code).

Definition Wrap (err : option error) (code message : string) : error :=
  AppError code message ∅ err (getDefaultHTTPStatus code).

Definition Code (e : error) : string :=
  match e with
  | AppError code _ _ _ _ => code
  | errorString _ => EmptyString
  end.

Definition Details (e : error) : gmap string string :=
  match e with
  | AppError _ _ details _ _ => details
  | errorString _ => ∅
  end.

Definition WithDetail (e : error) (key value : string) : error :=
  match e with
  | AppError code message details cause status =>
      AppError code message (<[key := value]> details) cause status
  | errorString _ => e
  end.

Definition InvalidInput (field reason : string) : error :=
  WithDetail (WithDetail (New CodeInvalidInput (message_of CodeInvalidInput))
                "field" field) "reason" reason.

Definition SubscriptionNotFound (subscriptionID : string) : error :=
  WithDetail (New CodeSubscriptionNotFound (message_of CodeSubscriptionNotFound))
    "subscription_id" subscriptionID.

Definition InvalidSubscriptionData (field reason : string) : error :=
  WithDetail (WithDetail (New CodeInvalidSubscriptionData
                            (message_of CodeInvalidSubscriptionData))
                "field" field) "reason" reason.

Definition InvalidDateFormat (value : string) : error :=
  WithDetail (WithDetail (New CodeInvalidDateFormat (message_of CodeInvalidDateFormat))
                "value" value) "expected_format" "MM-YYYY".

Definition InvalidDateRange (startDate endDate : string) : error :=
  WithDetail (WithDetail (New CodeInvalidDateRange (message_of CodeInvalidDateRange))
                "start_date" startDate) "end_date" endDate.

Definition InvalidUserID (userID : string) : error :=
  WithDetail (New CodeInvalidUserID (message_of CodeInvalidUserID)) "user_id" userID.

Definition InvalidPrice (price : Z) : error :=
  WithDetail (New CodeInvalidPrice (message_of CodeInvalidPrice))
    "price" (strconv.Itoa price).

Definition InvalidServiceName : error :=
  New CodeInvalidServiceName (message_of CodeInvalidServiceName).

Definition InvalidPaginationParams (limit offset : Z) : error :=
  WithDetail (WithDetail (New CodeInvalidPaginationParams
                            (message_of CodeInvalidPaginationParams))
                "limit" (strconv.Itoa limit)) "offset" (strconv.Itoa offset).

(** [err.Error()]. *)
Fixpoint Error (e : error) : string :=
  match e with
  | errorString msg => msg
  | AppError code message _ cause _ =>
      match cause with
      | Some c =>
          (code ++ ": " ++ message ++ " (caused by: " ++ Error c ++ ")")%string
      | None => (code ++ ": " ++ message)%string
      end
  end.

Definition InvalidFilterParams (field reason : string) : error :=
  WithDetail (WithDetail (New CodeInvalidFilterParams (message_of CodeInvalidFilterParams))
                "field" field) "reason" reason.

(** [e.HTTPStatus()] of an [*AppError]. *)
Definition HTTPStatus (e : error) : Z :=
  match e with
  | AppError _ _ _ _ status => status
  | errorString _ => 0
  end.

Definition NotFound (resource : string) : error :=
  let message :=
    if String.eqb resource EmptyString then message_of CodeNotFound
    else (resource ++ " not found")%string in
  WithDetail (New CodeNotFound message) "resource" resource.

(** [e.Is(target)] of an [*AppError] [e]: same code, and [false] for a
    target that is no [*AppError]. *)
Definition Is (e target : error) : bool :=
  match e, target with
  | AppError code _ _ _ _, AppError code' _ _ _ _ => String.eqb code code'
  | _, _ => false
  end.

End apperror.

(** ** Package [internal/domain/models] *)
Module models.

Import time.
Import apperror.

Module DatePeriod.

Record t : Type := mk {
  from : Time;
  to : Time
}.

Definition NewDatePeriod (from to : Time) : t := mk from to.

Definition From (dp : t) : Time := from dp.
Definition SetFrom (dp : t) (from' : Time) : t := mk from' (to dp).
Definition To (dp : t) : Time := to dp.
Definition SetTo (dp : t) (to' : Time) : t := mk (from dp) to'.

Definition Contains (dp : t) (date : Time) : bool :=
  negb (Before date (from dp)) && negb (After date (to dp)).

Definition Overlaps (dp other : t) : bool :=
  Before (from dp) (to other) && After (to dp) (from other).

Definition Duration (dp : t) : Z := Sub (to dp) (from dp).

Definition Validate (dp : t) : option error :=
  if Before (to dp) (from dp)
  then Some (errorString "end date cannot be before start date")
  else None.

End DatePeriod.

Module SubscriptionFilter.

Record t : Type := mk {
  userID : option uuid.UUID;
  serviceName : option string;
  startDate : option Time;
  endDate : option Time;
  isActive : option bool
}.

Definition NewSubscriptionFilter : t := mk None None None None None.

Definition UserID (f : t) := userID f.
Definition SetUserID (f : t) (userID' : option uuid.UUID) : t :=
  mk userID' (serviceName f) (startDate f) (endDate f) (isActive f).
Definition ServiceName (f : t) := serviceName f.
Definition SetServiceName (f : t) (serviceName' : option string) : t :=
  mk (userID f) serviceName' (startDate f) (endDate f) (isActive f).
Definition StartDate (f : t) := startDate f.
Definition SetStartDate (f : t) (startDate' : option Time) : t :=
  mk (userID f) (serviceName f) startDate' (endDate f) (isActive f).
Definition EndDate (f : t) := endDate f.
Definition SetEndDate (f : t) (endDate' : option Time) : t :=
  mk (userID f) (serviceName f) (startDate f) endDate' (isActive f).
Definition IsActive (f : t) := isActive f.
Definition SetIsActive (f : t) (isActive' : option bool) : t :=
  mk (userID f) (serviceName f) (startDate f) (endDate f) isActive'.

Definition HasUserID (f : t) : bool := bool_decide (userID f <> None).

Definition HasServiceName (f : t) : bool :=
  match serviceName f with
  | Some name => negb (String.eqb name EmptyString)
  | None => false
  end.

Definition HasDateRange (f : t) : bool :=
  bool_decide (startDate f <> None) || bool_decide (endDate f <> None).

Definition Validate (f : t) : option error :=
  match startDate f, endDate f with
  | Some sd, Some ed =>
      if Before ed sd
      then Some (errorString "end date cannot be before start date")
      else None
  | _, _ => None
  end.

End SubscriptionFilter.

Module Subscription.

Record t : Type := mk {
  id : uuid.UUID;
  serviceName : string;
  price : Z;
  userID : uuid.UUID;
  startDate : Time;
  endDate : option Time;
  createdAt : Time;
  updatedAt : Time
}.

(** The zero value of [time.Time] is not observed: every field is set by
    the factory or by the repository's scan. *)
Definition NewSubscription {E} `{Clock E} `{uuid.Random E}
    (serviceName : string) (price : Z) (userID : uuid.UUID) (startDate : Time)
  : Prog E t :=
  now <- Now ;;
  id <- uuid.New ;;
  Ret (mk id serviceName price userID startDate None now now).

Definition ID (s : t) := id s.
Definition SetID (s : t) (id' : uuid.UUID) : t :=
  mk id' (serviceName s) (price s) (userID s) (startDate s) (endDate s)
     (createdAt s) (updatedAt s).

Definition ServiceName (s : t) := serviceName s.
Definition SetServiceName {E} `{Clock E} (s : t) (serviceName' : string) : Prog E t :=
  now <- Now ;;
  Ret (mk (id s) serviceName' (price s) (userID s) (startDate s) (endDate s)
          (createdAt s) now).

Definition Price (s : t) := price s.
Definition SetPrice {E} `{Clock E} (s : t) (price' : Z) : Prog E t :=
  now <- Now ;;
  Ret (mk (id s) (serviceName s) price' (userID s) (startDate s) (endDate s)
          (createdAt s) now).

Definition UserID (s : t) := userID s.
Definition SetUserID {E} `{Clock E} (s : t) (userID' : uuid.UUID) : Prog E t :=
  now <- Now ;;
  Ret (mk (id s) (serviceName s) (price s) userID' (startDate s) (endDate s)
          (createdAt s) now).

Definition StartDate (s : t) := startDate s.
Definition SetStartDate {E} `{Clock E} (s : t) (startDate' : Time) : Prog E t :=
  now <- Now ;;
  Ret (mk (id s) (serviceName s) (price s) (userID s) startDate' (endDate s)
          (createdAt s) now).

Definition EndDate (s : t) := endDate s.
Definition SetEndDate {E} `{Clock E} (s : t) (endDate' : option Time) : Prog E t :=
  now <- Now ;;
  Ret (mk (id s) (serviceName s) (price s) (userID s) (startDate s) endDate'
          (createdAt s) now).

Definition CreatedAt (s : t) := createdAt s.
Definition SetCreatedAt (s : t) (createdAt' : Time) : t :=
  mk (id s) (serviceName s) (price s) (userID s) (startDate s) (endDate s)
     createdAt' (updatedAt s).

Definition UpdatedAt (s : t) := updatedAt s.
Definition SetUpdatedAt (s : t) (updatedAt' : Time) : t :=
  mk (id s) (serviceName s) (price s) (userID s) (startDate s) (endDate s)
     (createdAt s) updatedAt'.

Definition IsActive (s : t) (date : Time) : bool :=
  if Before date (startDate s) then false
  else match endDate s with
       | Some e => if After date e then false else true
       | None => true
       end.

Definition IsExpired (s : t) (date : Time) : bool :=
  match endDate s with
  | None => false
  | Some e => After date e
  end.

(** Absolute month index [year*12 + month - 1] of an instant. *)
Definition month_index (d : Time) : Z :=
  Int.sub (Int.add (Int.mul (Year d) 12) (Month d)) 1.

Definition CalculateCostForPeriod (s : t) (from to : Time) : Z :=
  if negb (IsActive s from) && negb (IsActive s to) then 0
  else
    let start := if After from (startDate s) then from else startDate s in
    let end_ :=
      match endDate s with
      | Some e => if Before e to then e else to
      | None => to
      end in
    if After start end_ then 0
    else
      let startMonth := month_index start in
      let endMonth := month_index end_ in
      let months := Int.add (Int.sub endMonth startMonth) 1 in
      if months <=? 0 then 0
      else Int.mul (price s) months.

Definition Validate (s : t) : option error :=
  if String.eqb (serviceName s) EmptyString
  then Some (errorString "service name cannot be empty")
  else if price s <=? 0
  then Some (errorString "price must be greater than zero")
  else if N.eqb (userID s) uuid.Nil
  then Some (errorString "user ID cannot be empty")
  else match endDate s with
       | Some e =>
           if Before e (startDate s)
           then Some (errorString "end date cannot be before start date")
           else None
       | None => None
       end.

End Subscription.

Module CostSummary.

Record t : Type := mk {
  totalCost : Z;
  period : DatePeriod.t;
  subscriptions : list Subscription.t
}.

Definition NewCostSummary (period : DatePeriod.t) : t := mk 0 period [].

Definition TotalCost (cs : t) := totalCost cs.
Definition SetTotalCost (cs : t) (totalCost' : Z) : t :=
  mk totalCost' (period cs) (subscriptions cs).

Definition Period (cs : t) := period cs.
Definition SetPeriod (cs : t) (period' : DatePeriod.t) : t :=
  mk 0 period' (subscriptions cs).

Definition Subscriptions (cs : t) := subscriptions cs.
Definition SetSubscriptions (cs : t) (subscriptions' : list Subscription.t) : t :=
  mk (totalCost cs) (period cs) subscriptions'.

Definition AddSubscription (cs : t) (sub : Subscription.t) : t :=
  mk (totalCost cs) (period cs) (subscriptions cs ++ [sub]).

(** The loop of [Calculate]: the running total after the subscriptions
    of [subs]. *)
Definition sum_costs (p : DatePeriod.t) (subs : list Subscription.t) : Z :=
  fold_left
    (fun total sub =>
       Int.add total
         (Subscription.CalculateCostForPeriod sub (DatePeriod.From p) (DatePeriod.To p)))
    subs 0.

(** [Calculate] stores the total and returns it: the result and the
    summary after the call. *)
Definition Calculate (cs : t) : Z * t :=
  let total := sum_costs (period cs) (subscriptions cs) in
  (total, mk total (period cs) (subscriptions cs)).

End CostSummary.

End models.

(** ** Package [pkg/utils] *)
Module utils.

Import time.
Import apperror.

Definition ParseMonthYear (dateStr : string) : result error Time :=
  if String.eqb dateStr EmptyString then Err (InvalidDateFormat dateStr)
  else
    match strings.Split dateStr "-" with
    | [p0; p1] =>
        match strconv.Atoi p0 with
        | None => Err (InvalidDateFormat dateStr)
        | Some month =>
            if (month <? 1) || (12 <? month) then Err (InvalidDateFormat dateStr)
            else
              match strconv.Atoi p1 with
              | None => Err (InvalidDateFormat dateStr)
              | Some year =>
                  if (year <? 2000) || (2100 <? year)
                  then Err (InvalidDateFormat dateStr)
                  else Ok (Date year month 1 0 0 0 0 UTC)
              end
        end
    | _ => Err (InvalidDateFormat dateStr)
    end.

(** [t.Format("01-2006")]: two-digit month, a dash, four-digit year. *)
Definition FormatMonthYear (t : Time) : string :=
  (strconv.pad (Month t) 2 ++ "-" ++ strconv.pad (Year t) 4)%string.

Definition StartOfMonth (t : Time) : Time :=
  Date (Year t) (Month t) 1 0 0 0 0 (Location t).

Definition EndOfMonth (t : Time) : Time :=
  Add (Date (Year t) (Month t + 1) 1 0 0 0 0 (Location t)) (- Nanosecond).

Definition ValidateDateRange (startDate endDate : option Time) : option error :=
  match startDate, endDate with
  | Some sd, Some ed =>
      if Before ed sd
      then Some (InvalidDateRange (FormatMonthYear sd) (FormatMonthYear ed))
      else None
  | _, _ => None
  end.

Definition ParseDateRange (startDateStr endDateStr : string)
  : result error (option Time * option Time) :=
  let parse_start :=
    if String.eqb startDateStr EmptyString then Ok None
    else match ParseMonthYear startDateStr with
         | Err e => Err e
         | Ok start => Ok (Some (StartOfMonth start))
         end in
  match parse_start with
  | Err e => Err e
  | Ok startDate =>
      let parse_end :=
        if String.eqb endDateStr EmptyString then Ok None
        else match ParseMonthYear endDateStr with
             | Err e => Err e
             | Ok end_ => Ok (Some (EndOfMonth end_))
             end in
      match parse_end with
      | Err e => Err e
      | Ok endDate =>
          match ValidateDateRange startDate endDate with
          | Some e => Err e
          | None => Ok (startDate, endDate)
          end
      end
  end.

Definition MonthsDifference (start end_ : Time) : Z :=
  let startMonth := Int.sub (Int.add (Int.mul (Year start) 12) (Month start)) 1 in
  let endMonth := Int.sub (Int.add (Int.mul (Year end_) 12) (Month end_)) 1 in
  let diff := Int.add (Int.sub endMonth startMonth) 1 in
  if diff <? 0 then 0 else diff.

Definition ValidateServiceName (serviceName : string) : option error :=
  if String.eqb (strings.TrimSpace serviceName) EmptyString
  then Some InvalidServiceName
  else if (255 <? String.length serviceName)%nat
  then Some (InvalidInput "service_name" "must not exceed 255 characters")
  else None.

Definition ValidatePrice (price : Z) : option error :=
  if price <=? 0 then Some (InvalidPrice price)
  else if 1000000 <? price
  then Some (InvalidInput "price" "must not exceed 1,000,000")
  else None.

Definition ValidatePagination (limit offset : Z) : result error (Z * Z) :=
  if limit <? 0
  then Err (WithDetail (InvalidPaginationParams limit offset)
              "limit_error" "must be non-negative")
  else if offset <? 0
  then Err (WithDetail (InvalidPaginationParams limit offset)
              "offset_error" "must be non-negative")
  else
    let limit := if limit =? 0 then 20 else limit in
    let limit := if 100 <? limit then 100 else limit in
    Ok (limit, offset).

Definition NormalizeString (s : string) : string := strings.TrimSpace s.

Definition IsEmpty (s : option string) : bool :=
  match s with
  | None => true
  | Some v => String.eqb (strings.TrimSpace v) EmptyString
  end.

End utils.

(** ** Package [internal/domain/ports/repository] *)
Module repository.

Import apperror.
Import models.

(** The methods of the [SubscriptionRepository] interface that the
    operations modelled below call. *)
Class SubscriptionRepository (E : Type -> Type) := {
  Create : Subscription.t -> E (option error);
  GetByID : uuid.UUID -> E (result error (option Subscription.t));
  Update : Subscription.t -> E (option error);
  GetTotalCostForPeriod :
    SubscriptionFilter.t -> DatePeriod.t -> E (result error Z)
}.

(** The remaining methods of the interface. *)
Class SubscriptionQueries (E : Type -> Type) := {
  GetByUserID : uuid.UUID -> Z -> Z -> E (result error (list Subscription.t));
  GetAll : SubscriptionFilter.t -> Z -> Z -> E (result error (list Subscription.t));
  Delete : uuid.UUID -> E (option error);
  Count : SubscriptionFilter.t -> E (result error Z);
  Exists : uuid.UUID -> E (result error bool)
}.

End repository.

(** ** Package [internal/service] *)
Module service.

Import time.
Import apperror.
Import models.
Import repository.

Section subscriptionService.

Context {E : Type -> Type}.
Context `{Clock E} `{uuid.Random E} `{SubscriptionRepository E}.

Definition validateCreateInput (serviceName : string) (price : Z) (userID : uuid.UUID)
  : option error :=
  match utils.ValidateServiceName serviceName with
  | Some err => Some err
  | None =>
      match utils.ValidatePrice price with
      | Some err => Some err
      | None =>
          if N.eqb userID uuid.Nil
          then Some (InvalidUserID (uuid.String userID))
          else None
      end
  end.

Definition validateUpdateInput (serviceName : option string) (price : option Z)
  : option error :=
  let name_err :=
    match serviceName with
    | Some name =>
        if negb (String.eqb name EmptyString)
        then utils.ValidateServiceName name
        else None
    | None => None
    end in
  match name_err with
  | Some err => Some err
  | None =>
      match price with
      | Some p => utils.ValidatePrice p
      | None => None
      end
  end.

Definition CreateSubscription (serviceName : string) (price : Z)
    (userID : uuid.UUID) (startDate : string) (endDate : option string)
  : Prog E (result error Subscription.t) :=
  match validateCreateInput serviceName price userID with
  | Some err => Ret (Err err)
  | None =>
      match utils.ParseMonthYear startDate with
      | Err err => Ret (Err err)
      | Ok startTime =>
          let startTime := utils.StartOfMonth startTime in
          subscription <-
            Subscription.NewSubscription (utils.NormalizeString serviceName)
              price userID startTime ;;
          subscription <-?
            match endDate with
            | Some ed =>
                if negb (String.eqb ed EmptyString)
                then
                  match utils.ParseMonthYear ed with
                  | Err err => Ret (Err err)
                  | Ok endTime =>
                      let endTime := utils.EndOfMonth endTime in
                      match utils.ValidateDateRange (Some startTime) (Some endTime) with
                      | Some err => Ret (Err err)
                      | None =>
                          s' <- Subscription.SetEndDate subscription (Some endTime) ;;
                          Ret (Ok s')
                      end
                  end
                else Ret (Ok subscription)
            | None => Ret (Ok subscription)
            end ;;
          match Subscription.Validate subscription with
          | Some err => Ret (Err (InvalidSubscriptionData "subscription" (Error err)))
          | None =>
              err <- call (Create subscription) ;;
              match err with
              | Some err => Ret (Err err)
              | None => Ret (Ok subscription)
              end
          end
      end
  end.

Definition GetSubscriptionByID (id : uuid.UUID)
  : Prog E (result error Subscription.t) :=
  if N.eqb id uuid.Nil then Ret (Err (InvalidInput "id" "cannot be empty"))
  else
    subscription <-? call (GetByID id) ;;
    match subscription with
    | None => Ret (Err (SubscriptionNotFound (uuid.String id)))
    | Some subscription => Ret (Ok subscription)
    end.

(** The entity is mutated in place while [hasChanges] is accumulated: each
    step below yields the entity and the flag after it. *)
Definition UpdateSubscription (id : uuid.UUID) (serviceName : option string)
    (price : option Z) (startDate endDate : option string)
  : Prog E (result error Subscription.t) :=
  subscription <-? GetSubscriptionByID id ;;
  match validateUpdateInput serviceName price with
  | Some err => Ret (Err err)
  | None =>
      let hasChanges := false in
      st <-
        match serviceName with
        | Some name =>
            if negb (String.eqb name EmptyString)
            then
              let normalized := utils.NormalizeString name in
              if negb (String.eqb normalized (Subscription.ServiceName subscription))
              then
                s' <- Subscription.SetServiceName subscription normalized ;;
                Ret (s', true)
              else Ret (subscription, hasChanges)
            else Ret (subscription, hasChanges)
        | None => Ret (subscription, hasChanges)
        end ;;
      let '(subscription, hasChanges) := st in
      st <-
        match price with
        | Some p =>
            if negb (p =? Subscription.Price subscription)
            then
              s' <- Subscription.SetPrice subscription p ;;
              Ret (s', true)
            else Ret (subscription, hasChanges)
        | None => Ret (subscription, hasChanges)
        end ;;
      let '(subscription, hasChanges) := st in
      st <-?
        match startDate with
        | Some sd =>
            if negb (String.eqb sd EmptyString)
            then
              match utils.ParseMonthYear sd with
              | Err err => Ret (Err err)
              | Ok newStartDate =>
                  let newStartDate := utils.StartOfMonth newStartDate in
                  s' <- Subscription.SetStartDate subscription newStartDate ;;
                  Ret (Ok (s', true))
              end
            else Ret (Ok (subscription, hasChanges))
        | None => Ret (Ok (subscription, hasChanges))
        end ;;
      let '(subscription, hasChanges) := st in
      st <-?
        match endDate with
        | Some ed =>
            if String.eqb ed EmptyString
            then
              s' <- Subscription.SetEndDate subscription None ;;
              Ret (Ok (s', true))
            else
              match utils.ParseMonthYear ed with
              | Err err => Ret (Err err)
              | Ok newEndDate =>
                  let newEndDate := utils.EndOfMonth newEndDate in
                  s' <- Subscription.SetEndDate subscription (Some newEndDate) ;;
                  Ret (Ok (s', true))
              end
        | None => Ret (Ok (subscription, hasChanges))
        end ;;
      let '(subscription, hasChanges) := st in
      if negb hasChanges then Ret (Ok subscription)
      else
        match Subscription.Validate subscription with
        | Some err => Ret (Err (InvalidSubscriptionData "subscription" (Error err)))
        | None =>
            err <- call (Update subscription) ;;
            match err with
            | Some err => Ret (Err err)
            | None => Ret (Ok subscription)
            end
        end
  end.

Definition CalculateTotalCost (userID : option uuid.UUID)
    (serviceName : option string) (startDate endDate : string)
  : Prog E (result error CostSummary.t) :=
  match utils.ParseDateRange startDate endDate with
  | Err err => Ret (Err err)
  | Ok (Some startTime, Some endTime) =>
      let period := DatePeriod.NewDatePeriod startTime endTime in
      match DatePeriod.Validate period with
      | Some _ => Ret (Err (InvalidDateRange startDate endDate))
      | None =>
          let filter := SubscriptionFilter.NewSubscriptionFilter in
          let filter :=
            match userID with
            | Some _ => SubscriptionFilter.SetUserID filter userID
            | None => filter
            end in
          let filter :=
            match serviceName with
            | Some name =>
                if negb (String.eqb name EmptyString)
                then SubscriptionFilter.SetServiceName filter
                       (Some (utils.NormalizeString name))
                else filter
            | None => filter
            end in
          totalCost <-? call (GetTotalCostForPeriod filter period) ;;
          let summary := CostSummary.NewCostSummary period in
          let summary := CostSummary.SetTotalCost summary totalCost in
          Ret (Ok summary)
      end
  | Ok _ =>
      Ret (Err (InvalidInput "date_range" "both start_date and end_date are required"))
  end.

End subscriptionService.

Section subscriptionQueries.

Context {E : Type -> Type}.
Context `{SubscriptionQueries E}.

Definition GetSubscriptionsByUser (userID : uuid.UUID) (limit offset : Z)
  : Prog E (result error (list Subscription.t)) :=
  if N.eqb userID uuid.Nil then Ret (Err (InvalidUserID (uuid.String userID)))
  else
    match utils.ValidatePagination limit offset with
    | Err err => Ret (Err err)
    | Ok (limit, offset) =>
        subscriptions <-? call (GetByUserID userID limit offset) ;;
        Ret (Ok subscriptions)
    end.

Definition GetAllSubscriptions (filter : option SubscriptionFilter.t)
    (limit offset : Z) : Prog E (result error (list Subscription.t)) :=
  let filter :=
    match filter with
    | None => SubscriptionFilter.NewSubscriptionFilter
    | Some f => f
    end in
  match SubscriptionFilter.Validate filter with
  | Some err => Ret (Err (InvalidFilterParams "filter" (Error err)))
  | None =>
      match utils.ValidatePagination limit offset with
      | Err err => Ret (Err err)
      | Ok (limit, offset) =>
          subscriptions <-? call (GetAll filter limit offset) ;;
          Ret (Ok subscriptions)
      end
  end.

Definition DeleteSubscription (id : uuid.UUID) : Prog E (option error) :=
  if N.eqb id uuid.Nil then Ret (Some (InvalidInput "id" "cannot be empty"))
  else
    r <- call (Exists id) ;;
    match r with
    | Err err => Ret (Some err)
    | Ok exists_ =>
        if negb exists_ then Ret (Some (SubscriptionNotFound (uuid.String id)))
        else
          err <- call (Delete id) ;;
          match err with
          | Some err => Ret (Some err)
          | None => Ret None
          end
    end.

Definition GetSubscriptionStats (userID : option uuid.UUID)
  : Prog E (result error Z) :=
  let filter := SubscriptionFilter.NewSubscriptionFilter in
  let filter :=
    match userID with
    | Some _ => SubscriptionFilter.SetUserID filter userID
    | None => filter
    end in
  count <-? call (Count filter) ;;
  Ret (Ok count).

End subscriptionQueries.

End service.

(** ** The PostgreSQL repository ([subscriptionRepository])

    The table [subscriptions] is the list of its rows, each in the form
    [scanSubscription] gives it.  A [TIMESTAMP WITH TIME ZONE] keeps
    microseconds: the driver drops the nanoseconds of a value it sends, and
    a value read back carries the process's local zone.  Failures of the
    connection are not part of this handler; the driver's message of a
    rejected statement is shortened to the name of the violated
    constraint. *)
Module postgres.

Import time.
Import apperror.
Import models.

(** The operations of the environment: the clock, the UUID generator and
    the repository. *)
Inductive Op : Type -> Type :=
| TimeNow : Op Time
| UUIDNew : Op uuid.UUID
| RepoCreate (s : Subscription.t) : Op (option error)
| RepoGetByID (id : uuid.UUID) : Op (result error (option Subscription.t))
| RepoUpdate (s : Subscription.t) : Op (option error)
| RepoGetTotalCostForPeriod (f : SubscriptionFilter.t) (p : DatePeriod.t)
  : Op (result error Z).

#[global] Instance Op_Clock : Clock Op := TimeNow.
#[global] Instance Op_Random : uuid.Random Op := UUIDNew.
#[global] Instance Op_Repository : repository.SubscriptionRepository Op := {
  repository.Create := RepoCreate;
  repository.GetByID := RepoGetByID;
  repository.Update := RepoUpdate;
  repository.GetTotalCostForPeriod := RepoGetTotalCostForPeriod
}.

(** Microseconds since the epoch, as the column holds them. *)
Definition micros (t : Time) : Z := unixNano t / 1000.

(** ASCII lower case; [ILIKE] folds other letters by the database locale,
    which is outside this model. *)
Definition lower (c : ascii) : ascii :=
  let n := nat_of_ascii c in
  if ((65 <=? n) && (n <=? 90))%nat then ascii_of_nat (n + 32) else c.

Definition is_continuation (c : ascii) : bool :=
  let n := nat_of_ascii c in ((128 <=? n) && (n <? 192))%nat.

Definition at_boundary (s : string) : bool :=
  match s with
  | EmptyString => true
  | String c _ => negb (is_continuation c)
  end.

Fixpoint skip_continuation (s : string) : string :=
  match s with
  | String c s' => if is_continuation c then skip_continuation s' else s
  | EmptyString => s
  end.

(** [LIKE] with case folding: [%] stands for any run of characters, [_]
    for one character, a backslash takes the next pattern byte literally. *)
Fixpoint like (pattern : list ascii) : string -> bool :=
  match pattern with
  | [] => fun s => String.eqb s EmptyString
  | p :: pattern' =>
      if Ascii.eqb p "%" then
        fix star (s : string) : bool :=
          (at_boundary s && like pattern' s)
          || match s with
             | EmptyString => false
             | String _ s' => star s'
             end
      else if Ascii.eqb p "_" then
        fun s =>
          match s with
          | EmptyString => false
          | String _ s' => like pattern' (skip_continuation s')
          end
      else if Ascii.eqb p "\" then
        match pattern' with
        | [] => fun _ => false
        | q :: pattern'' =>
            fun s =>
              match s with
              | EmptyString => false
              | String c s' => Ascii.eqb (lower q) (lower c) && like pattern'' s'
              end
        end
      else
        fun s =>
          match s with
          | EmptyString => false
          | String c s' => Ascii.eqb (lower p) (lower c) && like pattern' s'
          end
  end.

Definition ILIKE (s pattern : string) : bool := like (list_ascii_of_string pattern) s.

(** The [WHERE] clause of [GetTotalCostForPeriod], with [$1 = period.To()]
    and [$2 = period.From()]. *)
Definition in_period (p : DatePeriod.t) (row : Subscription.t) : bool :=
  (micros (Subscription.startDate row) <=? micros (DatePeriod.To p))
  && match Subscription.endDate row with
     | None => true
     | Some e => micros (DatePeriod.From p) <=? micros e
     end.

(** The conditions the filter adds. *)
Definition matches (f : SubscriptionFilter.t) (row : Subscription.t) : bool :=
  (if SubscriptionFilter.HasUserID f
   then match SubscriptionFilter.UserID f with
        | Some u => N.eqb (Subscription.userID row) u
        | None => true
        end
   else true)
  && (if SubscriptionFilter.HasServiceName f
      then match SubscriptionFilter.ServiceName f with
           | Some name => ILIKE (Subscription.serviceName row) ("%" ++ name ++ "%")
           | None => true
           end
      else true).

(** [SELECT COALESCE(SUM(price), 0) ...]: the sum is a [bigint]. *)
Definition GetTotalCostForPeriod (rows : list Subscription.t)
    (f : SubscriptionFilter.t) (p : DatePeriod.t) : result error Z :=
  let selected := List.filter (fun row => in_period p row && matches f row) rows in
  let total := fold_right Z.add 0 (map Subscription.price selected) in
  if Int.in_range total then Ok total
  else Err (errorString "get total cost for period: bigint out of range").

Definition GetByID (rows : list Subscription.t) (id : uuid.UUID)
  : result error (option Subscription.t) :=
  Ok (List.find (fun row => N.eqb (Subscription.id row) id) rows).

Section handler.

(** The readings of the clock, the UUIDs drawn and the local zone of the
    process. *)
Variable wall : nat -> Time.
Variable rand : nat -> uuid.UUID.
Variable local : Z.

Record World : Type := mkWorld {
  rows : list Subscription.t;
  ticks : nat
}.

Definition timestamptz (t : Time) : Time := mkTime (micros t * 1000) local.

(** The row an [INSERT] or [UPDATE] of the entity leaves in the table. *)
Definition stored (created : Time) (s : Subscription.t) : Subscription.t :=
  Subscription.mk (Subscription.id s) (Subscription.serviceName s)
    (Subscription.price s) (Subscription.userID s)
    (timestamptz (Subscription.startDate s))
    (option_map timestamptz (Subscription.endDate s))
    created (timestamptz (Subscription.updatedAt s)).

(** The constraints of the table: [price] is an [INTEGER] with
    [CHECK (price > 0)], and [check_end_date_after_start]. *)
Definition violated (row : Subscription.t) : option string :=
  if negb ((- 2 ^ 31 <=? Subscription.price row) && (Subscription.price row <? 2 ^ 31))
  then Some "integer out of range"
  else match Subscription.endDate row with
       | Some e =>
           if micros e <? micros (Subscription.startDate row)
           then Some "check_end_date_after_start"
           else if Subscription.price row <=? 0
           then Some "subscriptions_price_check" else None
       | None =>
           if Subscription.price row <=? 0
           then Some "subscriptions_price_check" else None
       end.

Definition has_id (id : uuid.UUID) (row : Subscription.t) : bool :=
  N.eqb (Subscription.id row) id.

Definition Create (w : World) (s : Subscription.t) : option error * World :=
  let row := stored (timestamptz (Subscription.createdAt s)) s in
  match violated row with
  | Some c => (Some (WithDetail (Wrap (Some (errorString c)) CodeDatabaseError
                                   (message_of CodeDatabaseError))
                       "operation" "create subscription"), w)
  | None =>
      if existsb (has_id (Subscription.id s)) (rows w)
      then (Some (WithDetail (Wrap (Some (errorString "subscriptions_pkey"))
                                CodeDatabaseError (message_of CodeDatabaseError))
                    "operation" "create subscription"), w)
      else (None, mkWorld (rows w ++ [row]) (ticks w))
  end.

Definition Update (w : World) (s : Subscription.t) : option error * World :=
  if negb (existsb (has_id (Subscription.id s)) (rows w))
  then (Some (errorString "subscription not found"), w)
  else
    match violated (stored (Subscription.createdAt s) s) with
    | Some c => (Some (errorString ("update subscription: " ++ c)), w)
    | None =>
        (None,
         mkWorld
           (map (fun row =>
                   if has_id (Subscription.id s) row
                   then stored (Subscription.createdAt row) s
                   else row)
                (rows w))
           (ticks w))
    end.

Definition handle : handler Op World :=
  fun X op =>
    match op in Op X return World -> X * World with
    | TimeNow => fun w => (wall (ticks w), mkWorld (rows w) (S (ticks w)))
    | UUIDNew => fun w => (rand (ticks w), mkWorld (rows w) (S (ticks w)))
    | RepoCreate s => fun w => Create w s
    | RepoGetByID id => fun w => (GetByID (rows w) id, w)
    | RepoUpdate s => fun w => Update w s
    | RepoGetTotalCostForPeriod f p =>
        fun w => (GetTotalCostForPeriod (rows w) f p, w)
    end.

End handler.

(** *** The other queries *)

Inductive QueryOp : Type -> Type :=
| RepoGetByUserID (userID : uuid.UUID) (limit offset : Z)
  : QueryOp (result error (list Subscription.t))
| RepoGetAll (f : SubscriptionFilter.t) (limit offset : Z)
  : QueryOp (result error (list Subscription.t))
| RepoDelete (id : uuid.UUID) : QueryOp (option error)
| RepoCount (f : SubscriptionFilter.t) : QueryOp (result error Z)
| RepoExists (id : uuid.UUID) : QueryOp (result error bool).

#[global] Instance QueryOp_Queries : repository.SubscriptionQueries QueryOp := {
  repository.GetByUserID := RepoGetByUserID;
  repository.GetAll := RepoGetAll;
  repository.Delete := RepoDelete;
  repository.Count := RepoCount;
  repository.Exists := RepoExists
}.

(** A value passed beside the text of a query. *)
Inductive arg : Type :=
| ArgUUID (u : uuid.UUID)
| ArgString (s : string)
| ArgTime (t : Time)
| ArgInt (n : Z).

Definition newline : string := String (ascii_of_nat 10) EmptyString.
Definition tab : string := String (ascii_of_nat 9) EmptyString.

(** The conditions, arguments and next placeholder index that
    [buildFilterQuery] and [buildCountQuery] both accumulate, in the same
    words. *)
Definition where_conditions (filter : SubscriptionFilter.t)
  : list string * list arg * Z :=
  let st : list string * list arg * Z := ([], [], 1) in
  let st :=
    let '(conditions, args, argIndex) := st in
    match (if SubscriptionFilter.HasUserID filter
           then SubscriptionFilter.UserID filter else None) with
    | Some u =>
        ((conditions ++ [("user_id = $" ++ strconv.Itoa argIndex)%string])%list,
         (args ++ [ArgUUID u])%list, Int.add argIndex 1)
    | None => st
    end in
  let st :=
    let '(conditions, args, argIndex) := st in
    match (if SubscriptionFilter.HasServiceName filter
           then SubscriptionFilter.ServiceName filter else None) with
    | Some name =>
        ((conditions ++ [("service_name ILIKE $" ++ strconv.Itoa argIndex)%string])%list,
         (args ++ [ArgString ("%" ++ name ++ "%")])%list, Int.add argIndex 1)
    | None => st
    end in
  if SubscriptionFilter.HasDateRange filter
  then
    let st :=
      let '(conditions, args, argIndex) := st in
      match SubscriptionFilter.StartDate filter with
      | Some sd =>
          ((conditions ++ [("start_date >= $" ++ strconv.Itoa argIndex)%string])%list,
           (args ++ [ArgTime sd])%list, Int.add argIndex 1)
      | None => st
      end in
    let '(conditions, args, argIndex) := st in
    match SubscriptionFilter.EndDate filter with
    | Some ed =>
        ((conditions ++ [("(end_date IS NULL OR end_date <= $"
                          ++ strconv.Itoa argIndex ++ ")")%string])%list,
         (args ++ [ArgTime ed])%list, Int.add argIndex 1)
    | None => st
    end
  else st.

Definition buildFilterQuery (filter : SubscriptionFilter.t) (limit offset : Z)
  : string * list arg :=
  let baseQuery :=
    (newline ++ tab ++ tab
     ++ "SELECT id, service_name, price, user_id, start_date, end_date, created_at, updated_at"
     ++ newline ++ tab ++ tab ++ "FROM subscriptions")%string in
  let '(conditions, args, argIndex) := where_conditions filter in
  let query := baseQuery in
  let query :=
    if (0 <? length conditions)%nat
    then query ++ " WHERE " ++ strings.Join conditions " AND "
    else query in
  let query := query ++ " ORDER BY created_at DESC" in
  let query :=
    query ++ (" LIMIT $" ++ strconv.Itoa argIndex
              ++ " OFFSET $" ++ strconv.Itoa (Int.add argIndex 1)) in
  (query, (args ++ [ArgInt limit; ArgInt offset])%list).

Definition buildCountQuery (filter : SubscriptionFilter.t) : string * list arg :=
  let baseQuery := "SELECT COUNT(*) FROM subscriptions" in
  let '(conditions, args, _) := where_conditions filter in
  let query := baseQuery in
  let query :=
    if (0 <? length conditions)%nat
    then query ++ " WHERE " ++ strings.Join conditions " AND "
    else query in
  (query, args).

(** What the conditions select. *)
Definition selected (f : SubscriptionFilter.t) (row : Subscription.t) : bool :=
  matches f row
  && match SubscriptionFilter.StartDate f with
     | Some sd => micros sd <=? micros (Subscription.startDate row)
     | None => true
     end
  && match SubscriptionFilter.EndDate f, Subscription.endDate row with
     | Some ed, Some e => micros e <=? micros ed
     | _, _ => true
     end.

Definition Count (rows : list Subscription.t) (f : SubscriptionFilter.t)
  : result error Z :=
  Ok (Z.of_nat (length (List.filter (selected f) rows))).

Definition Exists (rows : list Subscription.t) (id : uuid.UUID)
  : result error bool :=
  Ok (existsb (has_id id) rows).

(** [DELETE FROM subscriptions WHERE id = $1]: no row affected is the
    error "subscription not found". *)
Definition Delete (w : World) (id : uuid.UUID) : option error * World :=
  if existsb (has_id id) (rows w)
  then (None, mkWorld (List.filter (fun row => negb (has_id id row)) (rows w)) (ticks w))
  else (Some (errorString "subscription not found"), w).

Section queries.

(** [ORDER BY created_at DESC] leaves the order of rows with equal
    timestamps to the server: [ordered] is the order it gives. *)
Variable ordered : list Subscription.t -> list Subscription.t.

(** [LIMIT] and [OFFSET]; the server rejects negative ones. *)
Definition page (limit offset : Z) (l : list Subscription.t)
  : result error (list Subscription.t) :=
  if limit <? 0 then Err (errorString "LIMIT must not be negative")
  else if offset <? 0 then Err (errorString "OFFSET must not be negative")
  else Ok (firstn (Z.to_nat limit) (skipn (Z.to_nat offset) l)).

Definition GetByUserID (rows : list Subscription.t) (userID : uuid.UUID)
    (limit offset : Z) : result error (list Subscription.t) :=
  match page limit offset
          (ordered (List.filter (fun row => N.eqb (Subscription.userID row) userID) rows))
  with
  | Ok l => Ok l
  | Err e => Err (errorString ("get subscriptions by user id: " ++ Error e))
  end.

Definition GetAll (rows : list Subscription.t) (f : SubscriptionFilter.t)
    (limit offset : Z) : result error (list Subscription.t) :=
  match page limit offset (ordered (List.filter (selected f) rows)) with
  | Ok l => Ok l
  | Err e => Err (errorString ("get filtered subscriptions: " ++ Error e))
  end.

Definition handle_queries : handler QueryOp World :=
  fun X op =>
    match op in QueryOp X return World -> X * World with
    | RepoGetByUserID u limit offset => fun w => (GetByUserID (rows w) u limit offset, w)
    | RepoGetAll f limit offset => fun w => (GetAll (rows w) f limit offset, w)
    | RepoDelete id => fun w => Delete w id
    | RepoCount f => fun w => (Count (rows w) f, w)
    | RepoExists id => fun w => (Exists (rows w) id, w)
    end.

End queries.

End postgres.

(** ** Sample data used by the concrete statements *)
Module sample.

Import time.
Import models.

(** First instant of a month, UTC, as [ParseMonthYear] builds it. *)
Definition month (year m : Z) : Time := Date year m 1 0 0 0 0 UTC.

Definition dec2024 : Time := month 2024 12.
Definition jan2025 : Time := month 2025 1.
Definition feb2025 : Time := month 2025 2.
Definition mar2025 : Time := month 2025 3.

(** 15 February 2025, noon. *)
Definition mid_feb2025 : Time := Date 2025 2 15 12 0 0 0 UTC.

(** An open-ended subscription that starts in January 2025 at price 100. *)
Definition open_from_jan (id : uuid.UUID) (name : string) (user : uuid.UUID)
    (created updated : Time) : Subscription.t :=
  Subscription.mk id name 100 user jan2025 None created updated.

(** A subscription for February 2025 only, as the service stores it. *)
Definition feb_only : Subscription.t :=
  Subscription.mk 1%N "Yandex Plus" 400 2%N feb2025
    (Some (utils.EndOfMonth feb2025)) jan2025 jan2025.

(** The same month, with the first instant of February as its end date. *)
Definition feb_instant : Subscription.t :=
  Subscription.mk 1%N "Yandex Plus" 400 2%N feb2025 (Some feb2025) jan2025 jan2025.

Definition yandex : Subscription.t :=
  open_from_jan 7%N "Yandex Plus" 9%N dec2024 dec2024.

(** A process in UTC whose clock stands at 15 February 2025. *)
Definition pg : handler postgres.Op postgres.World :=
  postgres.handle (fun _ => mid_feb2025) (fun n => N.of_nat (S n)) UTC.

Definition one_row : postgres.World := postgres.mkWorld [yandex] 0.

End sample.

Import time apperror models.

(** The entity after [SetEndDate(nil)] at clock reading [now]. *)
Definition end_cleared (now : Time) (sub : Subscription.t) : Subscription.t :=
  Subscription.mk (Subscription.id sub) (Subscription.serviceName sub)
    (Subscription.price sub) (Subscription.userID sub)
    (Subscription.startDate sub) None (Subscription.createdAt sub) now.

(** ** Packages [dto/response] and [mappers] *)
Module response.

Record PeriodResponse : Type := mkPeriod {
  PeriodStartDate : string;
  PeriodEndDate : string
}.

Record CostSummaryResponse : Type := mkCostSummary {
  TotalCost : Z;
  Period : PeriodResponse;
  Currency : string
}.

Record SubscriptionResponse : Type := mkSubscription {
  ID : string;
  ServiceName : string;
  Price : Z;
  UserID : string;
  StartDate : string;
  EndDate : option string;
  CreatedAt : Time;
  UpdatedAt : Time
}.

End response.

Module mappers.

Definition SubscriptionToResponse (subscription : Subscription.t)
  : response.SubscriptionResponse :=
  response.mkSubscription
    (uuid.String (Subscription.ID subscription))
    (Subscription.ServiceName subscription)
    (Subscription.Price subscription)
    (uuid.String (Subscription.UserID subscription))
    (utils.FormatMonthYear (Subscription.StartDate subscription))
    (option_map utils.FormatMonthYear (Subscription.EndDate subscription))
    (Subscription.CreatedAt subscription)
    (Subscription.UpdatedAt subscription).

Definition CostSummaryToResponse (summary : CostSummary.t)
  : response.CostSummaryResponse :=
  let period := CostSummary.Period summary in
  response.mkCostSummary
    (CostSummary.TotalCost summary)
    (response.mkPeriod (utils.FormatMonthYear (DatePeriod.From period))
                       (utils.FormatMonthYear (DatePeriod.To period)))
    "RUB".

End mappers.

(** ** Vocabulary for the text of the queries *)
Module sqltext.

(** Number of [$] signs in a query, one for each placeholder. *)
Fixpoint placeholders (q : string) : nat :=
  match q with
  | EmptyString => O
  | String c q' => ((if Ascii.eqb c "$" then 1 else 0) + placeholders q')%nat
  end.

(** Which criteria of a filter are present: the user, a non-empty service
    name, the start bound, the end bound. *)
Definition criteria (f : SubscriptionFilter.t) : bool * bool * bool * bool :=
  (SubscriptionFilter.HasUserID f, SubscriptionFilter.HasServiceName f,
   bool_decide (SubscriptionFilter.StartDate f <> None),
   bool_decide (SubscriptionFilter.EndDate f <> None)).

End sqltext.

(** ** Calendar months of the years 2000 to 2100

    The vocabulary of the statements about months: [ParseMonthYear] admits
    exactly these years. *)
Module calendar.

(** Months are numbered [year * 12 + month - 1]: January 2000 is 24000 and
    January 2101, the first month past the range, is 25212. *)
Definition first_month : Z := 2000 * 12.
Definition end_month : Z := 2101 * 12.

(** Day number of the first day of month [i]. *)
Definition month_days (i : Z) : Z := days_from_civil (i / 12) (i mod 12 + 1) 1.

Definition first_day : Z := days_from_civil 2000 1 1.
Definition end_day : Z := days_from_civil 2101 1 1.

(** The local date of [t] lies in the years 2000 to 2100. *)
Definition in_2000_2100 (t : Time) : Prop :=
  first_day <= local_days t < end_day.

Definition month_index (t : Time) : Z := Year t * 12 + Month t - 1.

(** First and last instant of month [i] in UTC, as the service builds
    them. *)
Definition month_start (i : Z) : Time := Date (i / 12) (i mod 12 + 1) 1 0 0 0 0 UTC.
Definition month_end (i : Z) : Time := utils.EndOfMonth (month_start i).

(** [f] holds of the [n] integers from [lo] on. *)
Fixpoint all_from (f : Z -> bool) (lo : Z) (n : nat) : bool :=
  match n with
  | O => true
  | S n' => f lo && all_from f (lo + 1) n'
  end.

(** The month [civil_from_days] finds for day [d] is in range and its days
    include [d]. *)
Definition day_ok (d : Z) : bool :=
  let '(y, m, _) := civil_from_days d in
  let i := y * 12 + m - 1 in
  (1 <=? m) && (m <=? 12)
  && (first_month <=? i) && (i <? end_month)
  && (month_days i <=? d) && (d <? month_days (i + 1)).

(** Month [i] begins before month [i + 1] and inside the range of days. *)
Definition month_ok (i : Z) : bool :=
  (month_days i <? month_days (i + 1))
  && (first_day <=? month_days i) && (month_days (i + 1) <=? end_day).

(** The canonical text MM-YYYY of month [i]. *)
Definition month_text (i : Z) : string :=
  (strconv.pad (i mod 12 + 1) 2 ++ "-" ++ strconv.pad (i / 12) 4)%string.

(** The canonical text of month [i] parses to its first instant, which
    formats back to that text. *)
Definition text_ok (i : Z) : bool :=
  match utils.ParseMonthYear (month_text i) with
  | Ok t =>
      (unixNano t =? unixNano (month_start i)) && (zone t =? UTC)
      && String.eqb (utils.FormatMonthYear (month_start i)) (month_text i)
  | Err _ => false
  end.

(** The last month a subscription with end month [b] shares with a period
    that runs to month [q], and whether month [x] is not past [b]; no end
    month stands for an open-ended subscription. *)
Definition last_common (b : option Z) (q : Z) : Z :=
  match b with
  | Some b => Z.min b q
  | None => q
  end.

Definition not_past (b : option Z) (x : Z) : bool :=
  match b with
  | Some b => x <=? b
  | None => true
  end.

(** A subscription as the service builds it: it starts with month [a]
    and ends with month [b], or has no end date. *)
Definition aligned (a : Z) (b : option Z) (s : Subscription.t) : Prop :=
  Subscription.startDate s = month_start a
  /\ Subscription.endDate s = option_map month_end b.

(** The period from the first instant of month [p] to the last instant of
    month [q], as [CalculateTotalCost] builds it. *)
Definition months (p q : Z) : DatePeriod.t :=
  DatePeriod.NewDatePeriod (month_start p) (month_end q).

(** Month [i] is one of the months of 2000 to 2100, and so is the end
    month [b] if there is one. *)
Definition valid_month (i : Z) : Prop := first_month <= i < end_month.

Definition valid_end (b : option Z) : Prop :=
  match b with
  | Some b => valid_month b
  | None => True
  end.

End calendar.

(** A date string of two dash-separated parts whose second part reads as
    an integer outside 2000..2100. *)
Definition year_out_of_range (s : string) : Prop :=
  exists ms ys y,
    strings.Split s "-" = [ms; ys]
    /\ strconv.Atoi ys = Some y
    /\ (y < 2000 \/ 2100 < y).

(** * Properties *)

(** ** DatePeriod *)

Lemma Before_lt t u : Before t u = true <-> unixNano t < unixNano u.
Proof. unfold Before. apply Z.ltb_lt. Qed.

(** C6. [Overlaps] is symmetric, and it is the test that is strict on both
    sides: [from < other.to] and [to > other.from]. *)
Theorem Overlaps_symmetric (a b : DatePeriod.t) :
  DatePeriod.Overlaps a b = DatePeriod.Overlaps b a
  /\ DatePeriod.Overlaps a b
     = (unixNano (DatePeriod.from a) <? unixNano (DatePeriod.to b))
       && (unixNano (DatePeriod.from b) <? unixNano (DatePeriod.to a)).
Proof.
  unfold DatePeriod.Overlaps, Before, After. split.
  - apply andb_comm.
  - reflexivity.
Qed.

(** C8. [Validate] of the period [(from, to)] succeeds exactly when
    [from <= to]; when [to < from] it fails, with the one error the method
    has (the specification's InvalidRange). *)
Theorem DatePeriod_Validate_iff (from to : Time) :
  (DatePeriod.Validate (DatePeriod.NewDatePeriod from to) = None
   <-> unixNano from <= unixNano to)
  /\ (unixNano to < unixNano from ->
      DatePeriod.Validate (DatePeriod.NewDatePeriod from to)
      = Some (errorString "end date cannot be before start date")).
Proof.
  unfold DatePeriod.Validate, DatePeriod.NewDatePeriod, Before; cbn.
  destruct (Z.ltb_spec (unixNano to) (unixNano from)) as [Hlt | Hge]; split.
  - split; [discriminate | lia].
  - reflexivity.
  - split; [intros _; exact Hge | reflexivity].
  - lia.
Qed.

Lemma DatePeriod_Validate_iff_witness :
  (unixNano sample.jan2025 <= unixNano sample.mar2025
   /\ DatePeriod.Validate (DatePeriod.NewDatePeriod sample.jan2025 sample.mar2025) = None)
  /\ (unixNano sample.jan2025 < unixNano sample.mar2025
      /\ DatePeriod.Validate (DatePeriod.NewDatePeriod sample.mar2025 sample.jan2025)
         = Some (errorString "end date cannot be before start date")).
Proof.
  assert (Hlt : unixNano sample.jan2025 < unixNano sample.mar2025) by (vm_compute; reflexivity).
  assert (Hle : unixNano sample.jan2025 <= unixNano sample.mar2025) by lia.
  split; split.
  - exact Hle.
  - exact (proj2 (proj1 (DatePeriod_Validate_iff sample.jan2025 sample.mar2025)) Hle).
  - exact Hlt.
  - exact (proj2 (DatePeriod_Validate_iff sample.mar2025 sample.jan2025) Hlt).
Defined.

(** ** CostSummary *)

(** C7. [SetPeriod p] makes [p] the period, resets the total to 0 and keeps
    the list of subscriptions. *)
Theorem SetPeriod_resets_total (cs : CostSummary.t) (p : DatePeriod.t) :
  CostSummary.Period (CostSummary.SetPeriod cs p) = p
  /\ CostSummary.TotalCost (CostSummary.SetPeriod cs p) = 0
  /\ CostSummary.Subscriptions (CostSummary.SetPeriod cs p)
     = CostSummary.Subscriptions cs.
Proof. repeat split. Qed.

(** ** Pagination *)

(** C4. [ValidatePagination]: limit 0 becomes 20, a limit above 100 (150 for
    one) becomes 100, a negative limit is an error, a negative offset is an
    error, and a limit in 1..100 with a non-negative offset passes through
    unchanged. *)
Theorem ValidatePagination_spec :
  (forall offset, 0 <= offset ->
     utils.ValidatePagination 0 offset = Ok (20, offset))
  /\ (forall limit offset, 100 < limit -> 0 <= offset ->
        utils.ValidatePagination limit offset = Ok (100, offset))
  /\ utils.ValidatePagination 150 0 = Ok (100, 0)
  /\ (forall limit offset, limit < 0 ->
        exists e, utils.ValidatePagination limit offset = Err e
                  /\ Code e = CodeInvalidPaginationParams)
  /\ (forall limit offset, offset < 0 ->
        exists e, utils.ValidatePagination limit offset = Err e
                  /\ Code e = CodeInvalidPaginationParams)
  /\ (forall limit offset, 1 <= limit <= 100 -> 0 <= offset ->
        utils.ValidatePagination limit offset = Ok (limit, offset)).
Proof.
  unfold utils.ValidatePagination. repeat split.
  - intros offset Ho. cbn.
    destruct (Z.ltb_spec offset 0); [lia | reflexivity].
  - intros limit offset Hl Ho.
    destruct (Z.ltb_spec limit 0); [lia |].
    destruct (Z.ltb_spec offset 0); [lia |].
    destruct (Z.eqb_spec limit 0); [lia |].
    destruct (Z.ltb_spec 100 limit); [reflexivity | lia].
  - intros limit offset Hl.
    destruct (Z.ltb_spec limit 0); [| lia].
    eexists; split; reflexivity.
  - intros limit offset Ho.
    destruct (Z.ltb_spec limit 0); [eexists; split; reflexivity |].
    destruct (Z.ltb_spec offset 0); [| lia].
    eexists; split; reflexivity.
  - intros limit offset Hl Ho.
    destruct (Z.ltb_spec limit 0); [lia |].
    destruct (Z.ltb_spec offset 0); [lia |].
    destruct (Z.eqb_spec limit 0); [lia |].
    destruct (Z.ltb_spec 100 limit); [lia | reflexivity].
Qed.

Lemma ValidatePagination_spec_witness :
  utils.ValidatePagination 0 40 = Ok (20, 40)
  /\ utils.ValidatePagination 101 0 = Ok (100, 0)
  /\ (exists e, utils.ValidatePagination (-1) 0 = Err e
                /\ Code e = CodeInvalidPaginationParams)
  /\ (exists e, utils.ValidatePagination 10 (-1) = Err e
                /\ Code e = CodeInvalidPaginationParams)
  /\ utils.ValidatePagination 100 7 = Ok (100, 7).
Proof.
  destruct ValidatePagination_spec as (H0 & Hbig & _ & Hneg & Hoff & Hid).
  split; [apply H0; lia |].
  split; [apply Hbig; lia |].
  split; [apply Hneg; lia |].
  split; [apply Hoff; lia |].
  apply Hid; lia.
Defined.

(** ** Cost of one subscription over a period *)

(** The short circuit of [CalculateCostForPeriod]. *)
Lemma cost_inactive_at_both_ends (s : Subscription.t) (from to : Time) :
  Subscription.IsActive s from = false ->
  Subscription.IsActive s to = false ->
  Subscription.CalculateCostForPeriod s from to = 0.
Proof.
  intros Hfrom Hto. unfold Subscription.CalculateCostForPeriod.
  rewrite Hfrom, Hto. reflexivity.
Qed.

(** C2. A subscription that is inactive at [from] and inactive at [to]
    costs 0 over [(from, to)].  So does the subscription for February 2025
    alone over January to March 2025 (to the first or to the last instant of
    March), although it is active in mid-February, inside the window; and
    so does the one whose end date is the first instant of February, active
    at that instant. *)
Theorem cost_zero_when_inactive_at_both_ends :
  (forall (s : Subscription.t) (from to : Time),
     Subscription.IsActive s from = false ->
     Subscription.IsActive s to = false ->
     Subscription.CalculateCostForPeriod s from to = 0)
  /\ Subscription.IsActive sample.feb_only sample.jan2025 = false
  /\ Subscription.IsActive sample.feb_only sample.mar2025 = false
  /\ Subscription.IsActive sample.feb_only sample.mid_feb2025 = true
  /\ Before sample.jan2025 sample.mid_feb2025 = true
  /\ Before sample.mid_feb2025 sample.mar2025 = true
  /\ Subscription.CalculateCostForPeriod sample.feb_only
       sample.jan2025 sample.mar2025 = 0
  /\ Subscription.CalculateCostForPeriod sample.feb_only
       sample.jan2025 (utils.EndOfMonth sample.mar2025) = 0
  /\ Subscription.IsActive sample.feb_instant sample.feb2025 = true
  /\ Subscription.CalculateCostForPeriod sample.feb_instant
       sample.jan2025 sample.mar2025 = 0.
Proof.
  split; [exact cost_inactive_at_both_ends |].
  repeat split; vm_compute; reflexivity.
Qed.

Lemma cost_zero_when_inactive_at_both_ends_witness :
  Subscription.IsActive sample.feb_only sample.dec2024 = false
  /\ Subscription.IsActive sample.feb_only sample.mar2025 = false
  /\ Subscription.CalculateCostForPeriod sample.feb_only
       sample.dec2024 sample.mar2025 = 0.
Proof.
  assert (H1 : Subscription.IsActive sample.feb_only sample.dec2024 = false)
    by (vm_compute; reflexivity).
  assert (H2 : Subscription.IsActive sample.feb_only sample.mar2025 = false)
    by (vm_compute; reflexivity).
  split; [exact H1 |]. split; [exact H2 |].
  exact (proj1 cost_zero_when_inactive_at_both_ends
           sample.feb_only sample.dec2024 sample.mar2025 H1 H2).
Defined.

(** C3. The open-ended subscription that starts at the first instant of
    January 2025 at price 100 costs 300 over January to March 2025, 100 over
    February to February, and 0 over every period that ends before January
    2025.  The first two hold for a period given by the first instants of
    its months and for the period the service builds, which runs to the
    last instant of its last month. *)
Theorem cost_of_open_subscription_from_jan2025
    (id : uuid.UUID) (name : string) (user : uuid.UUID) (created updated : Time) :
  let s := sample.open_from_jan id name user created updated in
  Subscription.CalculateCostForPeriod s sample.jan2025 sample.mar2025 = 300
  /\ Subscription.CalculateCostForPeriod s sample.jan2025
       (utils.EndOfMonth sample.mar2025) = 300
  /\ Subscription.CalculateCostForPeriod s sample.feb2025 sample.feb2025 = 100
  /\ Subscription.CalculateCostForPeriod s sample.feb2025
       (utils.EndOfMonth sample.feb2025) = 100
  /\ (forall from to : Time,
        Before to sample.jan2025 = true ->
        Subscription.CalculateCostForPeriod s from to = 0).
Proof.
  cbv zeta.
  split; [vm_compute; reflexivity |].
  split; [vm_compute; reflexivity |].
  split; [vm_compute; reflexivity |].
  split; [vm_compute; reflexivity |].
  intros from to Hto. apply Before_lt in Hto.
  unfold Subscription.CalculateCostForPeriod, Subscription.IsActive,
    sample.open_from_jan; cbn [Subscription.startDate Subscription.endDate].
  unfold Before, After in *.
  destruct (Z.ltb_spec (unixNano to) (unixNano sample.jan2025)) as [_ | Hge]; [| lia].
  destruct (Z.ltb_spec (unixNano from) (unixNano sample.jan2025)) as [Hlt | Hge];
    [reflexivity |].
  cbn [negb andb].
  destruct (Z.ltb_spec (unixNano sample.jan2025) (unixNano from)) as [Hgt | Hle].
  - destruct (Z.ltb_spec (unixNano to) (unixNano from)); [reflexivity | lia].
  - destruct (Z.ltb_spec (unixNano to) (unixNano sample.jan2025)); [reflexivity | lia].
Qed.

Lemma cost_of_open_subscription_from_jan2025_witness :
  Before (Date 2024 11 30 0 0 0 0 UTC) sample.jan2025 = true
  /\ Subscription.CalculateCostForPeriod sample.yandex
       (Date 2024 3 1 0 0 0 0 UTC) (Date 2024 11 30 0 0 0 0 UTC) = 0.
Proof.
  assert (H : Before (Date 2024 11 30 0 0 0 0 UTC) sample.jan2025 = true)
    by (vm_compute; reflexivity).
  split; [exact H |].
  exact (proj2 (proj2 (proj2 (proj2
           (cost_of_open_subscription_from_jan2025 7%N "Yandex Plus" 9%N
              sample.dec2024 sample.dec2024))))
           (Date 2024 3 1 0 0 0 0 UTC) (Date 2024 11 30 0 0 0 0 UTC) H).
Defined.

(** ** UpdateSubscription *)

Section any_repository.

Context {E : Type -> Type}.
Context {HC : Clock E} {HR : uuid.Random E} {HS : repository.SubscriptionRepository E}.
Context {W : Type} (h : handler E W).

(** The lookup at the head of [UpdateSubscription] on an entity that is
    there. *)
Lemma run_GetSubscriptionByID_found (w w' : W) (id : uuid.UUID) (sub : Subscription.t) :
  id <> uuid.Nil ->
  h _ (repository.GetByID id) w = (Ok (Some sub), w') ->
  run h (service.GetSubscriptionByID id) w
  = (Ok sub, w', [Called (repository.GetByID id)]).
Proof.
  intros Hid Hget. unfold service.GetSubscriptionByID.
  destruct (N.eqb_spec id uuid.Nil) as [Heq | _]; [contradiction |].
  cbn. rewrite Hget. reflexivity.
Qed.

(** With no field supplied the only operation performed is the lookup, and
    its result is returned as it is. *)
Lemma run_UpdateSubscription_nothing_supplied
    (w w' : W) (id : uuid.UUID) (sub : Subscription.t) :
  id <> uuid.Nil ->
  h _ (repository.GetByID id) w = (Ok (Some sub), w') ->
  run h (service.UpdateSubscription id None None None None) w
  = (Ok sub, w', [Called (repository.GetByID id)]).
Proof.
  intros Hid Hget. unfold service.UpdateSubscription, service.GetSubscriptionByID.
  destruct (N.eqb_spec id uuid.Nil) as [Heq | _]; [contradiction |].
  cbn. rewrite Hget. reflexivity.
Qed.

(** With only [endDate] supplied, as the empty string: the end date is
    cleared, the entity is stamped and, being valid, handed to [Update]. *)
Lemma run_UpdateSubscription_empty_endDate
    (w w1 w2 w3 : W) (id : uuid.UUID) (sub : Subscription.t) (now : Time)
    (err : option error) :
  id <> uuid.Nil ->
  h _ (repository.GetByID id) w = (Ok (Some sub), w1) ->
  h _ clock_now w1 = (now, w2) ->
  Subscription.Validate (end_cleared now sub) = None ->
  h _ (repository.Update (end_cleared now sub)) w2 = (err, w3) ->
  run h (service.UpdateSubscription id None None None (Some "")) w
  = (match err with Some e => Err e | None => Ok (end_cleared now sub) end,
     w3,
     [Called (repository.GetByID id); Called clock_now;
      Called (repository.Update (end_cleared now sub))]).
Proof.
  intros Hid Hget Hnow Hvalid Hupd.
  unfold service.UpdateSubscription, service.GetSubscriptionByID.
  destruct (N.eqb_spec id uuid.Nil) as [Heq | _]; [contradiction |].
  cbn. rewrite Hget. cbn. rewrite Hnow. cbn.
  fold (end_cleared now sub). rewrite Hvalid. cbn. rewrite Hupd.
  destruct err; reflexivity.
Qed.

End any_repository.

(** C5. For a subscription the table holds under a non-nil id,
    [UpdateSubscription] with no field supplied returns that entity, every
    field as stored; the lookup is the only operation performed, so
    [Update] is not invoked, and the table after the call is the table
    before it. *)
Theorem UpdateSubscription_no_fields_no_write
    (wall : nat -> Time) (rand : nat -> uuid.UUID) (local : Z)
    (w : postgres.World) (id : uuid.UUID) (sub : Subscription.t) :
  id <> uuid.Nil ->
  postgres.GetByID (postgres.rows w) id = Ok (Some sub) ->
  run (postgres.handle wall rand local)
      (service.UpdateSubscription id None None None None) w
  = (Ok sub, w, [Called (postgres.RepoGetByID id)]).
Proof.
  intros Hid Hget.
  apply (run_UpdateSubscription_nothing_supplied
           (HS := postgres.Op_Repository)
           (postgres.handle wall rand local) w w id sub Hid).
  cbn. rewrite Hget. reflexivity.
Qed.

Lemma UpdateSubscription_no_fields_no_write_witness :
  7%N <> uuid.Nil
  /\ postgres.GetByID (postgres.rows sample.one_row) 7%N = Ok (Some sample.yandex)
  /\ run sample.pg (service.UpdateSubscription 7%N None None None None) sample.one_row
     = (Ok sample.yandex, sample.one_row, [Called (postgres.RepoGetByID 7%N)]).
Proof.
  assert (Hid : 7%N <> uuid.Nil) by discriminate.
  assert (Hget : postgres.GetByID (postgres.rows sample.one_row) 7%N
                 = Ok (Some sample.yandex)) by reflexivity.
  split; [exact Hid |]. split; [exact Hget |].
  exact (UpdateSubscription_no_fields_no_write
           (fun _ => sample.mid_feb2025) (fun n => N.of_nat (S n)) UTC
           sample.one_row 7%N sample.yandex Hid Hget).
Defined.

(** C10. A [serviceName] supplied as the empty string makes
    [UpdateSubscription] the very program it is with [serviceName] omitted
    (whatever the other arguments), so alone it changes nothing and writes
    nothing; an empty [startDate] is an omitted one in the same way.  An
    [endDate] supplied as the empty string clears the stored end date and
    counts as a change: the entity, stamped with the clock's reading and
    valid, is handed to [Update]. *)
Theorem empty_serviceName_omitted_empty_endDate_clears :
  (forall (E : Type -> Type) (C : Clock E) (R : uuid.Random E)
          (S : repository.SubscriptionRepository E)
          (id : uuid.UUID) (price : option Z) (startDate endDate : option string),
     service.UpdateSubscription (E := E) id (Some "") price startDate endDate
     = service.UpdateSubscription id None price startDate endDate)
  /\ (forall (E : Type -> Type) (C : Clock E) (R : uuid.Random E)
             (S : repository.SubscriptionRepository E)
             (id : uuid.UUID) (serviceName : option string) (price : option Z)
             (endDate : option string),
        service.UpdateSubscription (E := E) id serviceName price (Some "") endDate
        = service.UpdateSubscription id serviceName price None endDate)
  /\ (forall wall rand local (w : postgres.World) id sub,
        id <> uuid.Nil ->
        postgres.GetByID (postgres.rows w) id = Ok (Some sub) ->
        run (postgres.handle wall rand local)
            (service.UpdateSubscription id (Some "") None None None) w
        = (Ok sub, w, [Called (postgres.RepoGetByID id)]))
  /\ (forall wall rand local (w : postgres.World) id sub,
        id <> uuid.Nil ->
        postgres.GetByID (postgres.rows w) id = Ok (Some sub) ->
        let cleared := end_cleared (wall (postgres.ticks w)) sub in
        let w1 := postgres.mkWorld (postgres.rows w) (S (postgres.ticks w)) in
        Subscription.Validate cleared = None ->
        Subscription.endDate cleared = None
        /\ run (postgres.handle wall rand local)
               (service.UpdateSubscription id None None None (Some "")) w
           = (match fst (postgres.Update local w1 cleared) with
              | Some e => Err e
              | None => Ok cleared
              end,
              snd (postgres.Update local w1 cleared),
              [Called (postgres.RepoGetByID id); Called postgres.TimeNow;
               Called (postgres.RepoUpdate cleared)])).
Proof.
  split; [reflexivity |]. split; [reflexivity |]. split.
  - intros wall rand local w id sub Hid Hget.
    change (service.UpdateSubscription id (Some "") None None None)
      with (service.UpdateSubscription (E := postgres.Op) id None None None None).
    apply (run_UpdateSubscription_nothing_supplied
             (HS := postgres.Op_Repository)
             (postgres.handle wall rand local) w w id sub Hid).
    cbn. rewrite Hget. reflexivity.
  - intros wall rand local w id sub Hid Hget cleared w1 Hvalid.
    split; [reflexivity |].
    apply (run_UpdateSubscription_empty_endDate
             (HC := postgres.Op_Clock) (HS := postgres.Op_Repository)
             (postgres.handle wall rand local) w w w1
             (snd (postgres.Update local w1 cleared)) id sub
             (wall (postgres.ticks w))
             (fst (postgres.Update local w1 cleared)) Hid).
    + cbn. rewrite Hget. reflexivity.
    + reflexivity.
    + exact Hvalid.
    + exact (surjective_pairing (postgres.Update local w1 cleared)).
Qed.

Lemma empty_serviceName_omitted_empty_endDate_clears_witness :
  let cleared := end_cleared sample.mid_feb2025 sample.feb_only in
  let w := postgres.mkWorld [sample.feb_only] 0 in
  (1%N <> uuid.Nil
   /\ postgres.GetByID (postgres.rows w) 1%N = Ok (Some sample.feb_only)
   /\ Subscription.Validate cleared = None)
  /\ run sample.pg (service.UpdateSubscription 1%N (Some "") None None None) w
     = (Ok sample.feb_only, w, [Called (postgres.RepoGetByID 1%N)])
  /\ run sample.pg (service.UpdateSubscription 1%N None None None (Some "")) w
     = (Ok cleared, postgres.mkWorld [cleared] 1,
        [Called (postgres.RepoGetByID 1%N); Called postgres.TimeNow;
         Called (postgres.RepoUpdate cleared)]).
Proof.
  intros cleared w.
  assert (Hid : 1%N <> uuid.Nil) by discriminate.
  assert (Hget : postgres.GetByID (postgres.rows w) 1%N = Ok (Some sample.feb_only))
    by reflexivity.
  assert (Hvalid : Subscription.Validate cleared = None) by reflexivity.
  destruct empty_serviceName_omitted_empty_endDate_clears as (_ & _ & Hname & Hend).
  split; [auto |]. split.
  - exact (Hname (fun _ => sample.mid_feb2025) (fun n => N.of_nat (S n)) UTC
             w 1%N sample.feb_only Hid Hget).
  - exact (proj2 (Hend (fun _ => sample.mid_feb2025) (fun n => N.of_nat (S n)) UTC
                    w 1%N sample.feb_only Hid Hget Hvalid)).
Defined.

(** ** ParseMonthYear *)

Lemma ParseMonthYear_Ok_inv (s : string) (t : Time) :
  utils.ParseMonthYear s = Ok t ->
  exists ms ys m y,
    strings.Split s "-" = [ms; ys]
    /\ strconv.Atoi ms = Some m /\ 1 <= m <= 12
    /\ strconv.Atoi ys = Some y /\ 2000 <= y <= 2100
    /\ t = Date y m 1 0 0 0 0 UTC.
Proof.
  unfold utils.ParseMonthYear. intros Hp.
  destruct (String.eqb s EmptyString); [discriminate |].
  destruct (strings.Split s "-") as [| ms [| ys [| ? ?]]] eqn:Hsplit;
    try discriminate.
  destruct (strconv.Atoi ms) as [m |] eqn:Hm; [| discriminate].
  destruct (Z.ltb_spec m 1); [discriminate |].
  destruct (Z.ltb_spec 12 m); [discriminate |]. cbn in Hp.
  destruct (strconv.Atoi ys) as [y |] eqn:Hy; [| discriminate].
  destruct (Z.ltb_spec y 2000); [discriminate |].
  destruct (Z.ltb_spec 2100 y); [discriminate |]. cbn in Hp.
  exists ms, ys, m, y. inversion Hp.
  repeat split; first [assumption | reflexivity].
Qed.

Lemma ParseMonthYear_Err_inv (s : string) (e : error) :
  utils.ParseMonthYear s = Err e -> e = InvalidDateFormat s.
Proof.
  unfold utils.ParseMonthYear. intros Hp.
  destruct (String.eqb s EmptyString); [congruence |].
  destruct (strings.Split s "-") as [| ms [| ys [| ? ?]]]; try congruence.
  destruct (strconv.Atoi ms) as [m |]; [| congruence].
  destruct ((m <? 1) || (12 <? m)); [congruence |].
  destruct (strconv.Atoi ys) as [y |]; [| congruence].
  destruct ((y <? 2000) || (2100 <? y)); congruence.
Qed.

Lemma year_out_of_range_rejected (s : string) :
  year_out_of_range s -> utils.ParseMonthYear s = Err (InvalidDateFormat s).
Proof.
  intros (ms & ys & y & Hsplit & Hy & Hrange).
  destruct (utils.ParseMonthYear s) as [t | e] eqn:Hp.
  - apply ParseMonthYear_Ok_inv in Hp.
    destruct Hp as (ms' & ys' & m' & y' & Hsplit' & _ & _ & Hy' & Hrange' & _).
    rewrite Hsplit in Hsplit'. inversion Hsplit'; subst.
    rewrite Hy in Hy'. inversion Hy'; subst. lia.
  - apply ParseMonthYear_Err_inv in Hp. now subst.
Qed.

Lemma year_out_of_range_nonempty (s : string) :
  year_out_of_range s -> String.eqb s EmptyString = false.
Proof.
  intros (ms & ys & y & Hsplit & _). destruct s; [discriminate | reflexivity].
Qed.

(** C9. [ParseMonthYear] accepts only strings of two dash-separated parts,
    the first reading as an integer in 1..12 and the second as an integer in
    2000..2100; every rejection is the InvalidDateFormat error of the
    string.  A year outside 2000..2100 is rejected, as in "01-1999" and
    "01-2101".  [CreateSubscription] then fails on such a start date before
    any operation, and on such an end date without calling [Create];
    [CalculateTotalCost] fails on such a start or end date without calling
    the repository. *)
Theorem ParseMonthYear_year_2000_2100 :
  (forall s t,
     utils.ParseMonthYear s = Ok t ->
     exists ms ys m y,
       strings.Split s "-" = [ms; ys]
       /\ strconv.Atoi ms = Some m /\ 1 <= m <= 12
       /\ strconv.Atoi ys = Some y /\ 2000 <= y <= 2100
       /\ t = Date y m 1 0 0 0 0 UTC)
  /\ (forall s e,
        utils.ParseMonthYear s = Err e ->
        e = InvalidDateFormat s /\ Code e = CodeInvalidDateFormat)
  /\ (forall s, year_out_of_range s ->
        utils.ParseMonthYear s = Err (InvalidDateFormat s))
  /\ utils.ParseMonthYear "01-1999" = Err (InvalidDateFormat "01-1999")
  /\ utils.ParseMonthYear "01-2101" = Err (InvalidDateFormat "01-2101")
  /\ (forall (E : Type -> Type) (HC : Clock E) (HR : uuid.Random E)
             (HS : repository.SubscriptionRepository E)
             (W : Type) (h : handler E W) (w : W)
             serviceName price userID startDate endDate,
        year_out_of_range startDate ->
        exists e,
          run h (service.CreateSubscription serviceName price userID startDate endDate) w
          = (Err e, w, [])
          /\ (service.validateCreateInput serviceName price userID = None ->
              e = InvalidDateFormat startDate))
  /\ (forall (E : Type -> Type) (HC : Clock E) (HR : uuid.Random E)
             (HS : repository.SubscriptionRepository E)
             (W : Type) (h : handler E W) (w : W)
             serviceName price userID startDate endDate t,
        service.validateCreateInput serviceName price userID = None ->
        utils.ParseMonthYear startDate = Ok t ->
        year_out_of_range endDate ->
        exists w',
          run h (service.CreateSubscription serviceName price userID startDate
                   (Some endDate)) w
          = (Err (InvalidDateFormat endDate), w',
             [Called clock_now; Called uuid.random_uuid]))
  /\ (forall (E : Type -> Type) (HS : repository.SubscriptionRepository E)
             (W : Type) (h : handler E W) (w : W)
             userID serviceName startDate endDate,
        year_out_of_range startDate ->
        run h (service.CalculateTotalCost userID serviceName startDate endDate) w
        = (Err (InvalidDateFormat startDate), w, []))
  /\ (forall (E : Type -> Type) (HS : repository.SubscriptionRepository E)
             (W : Type) (h : handler E W) (w : W)
             userID serviceName startDate endDate,
        (startDate = EmptyString \/ exists t, utils.ParseMonthYear startDate = Ok t) ->
        year_out_of_range endDate ->
        run h (service.CalculateTotalCost userID serviceName startDate endDate) w
        = (Err (InvalidDateFormat endDate), w, [])).
Proof.
  split; [exact ParseMonthYear_Ok_inv |].
  split; [intros s e Hp; apply ParseMonthYear_Err_inv in Hp; now subst |].
  split; [exact year_out_of_range_rejected |].
  split; [reflexivity |]. split; [reflexivity |].
  split; [| split; [| split]].
  - intros E HC HR HS W h w serviceName price userID startDate endDate Hout.
    unfold service.CreateSubscription.
    destruct (service.validateCreateInput serviceName price userID) as [err |].
    + exists err. split; [reflexivity | discriminate].
    + rewrite (year_out_of_range_rejected _ Hout).
      eexists. split; reflexivity.
  - intros E HC HR HS W h w serviceName price userID startDate endDate t
      Hvalid Hstart Hout.
    unfold service.CreateSubscription. rewrite Hvalid, Hstart.
    rewrite (year_out_of_range_rejected _ Hout).
    rewrite (year_out_of_range_nonempty _ Hout). cbn.
    destruct (h Time clock_now w) as [now w1].
    destruct (h uuid.UUID uuid.random_uuid w1) as [id w2].
    exists w2. reflexivity.
  - intros E HS W h w userID serviceName startDate endDate Hout.
    unfold service.CalculateTotalCost, utils.ParseDateRange.
    rewrite (year_out_of_range_nonempty _ Hout).
    rewrite (year_out_of_range_rejected _ Hout). reflexivity.
  - intros E HS W h w userID serviceName startDate endDate Hstart Hout.
    unfold service.CalculateTotalCost, utils.ParseDateRange.
    rewrite (year_out_of_range_nonempty _ Hout).
    rewrite (year_out_of_range_rejected _ Hout).
    destruct Hstart as [-> | [t Hstart]].
    + reflexivity.
    + rewrite Hstart. destruct (String.eqb startDate EmptyString); reflexivity.
Qed.

Lemma ParseMonthYear_year_2000_2100_witness :
  (utils.ParseMonthYear "07-2025" = Ok (sample.month 2025 7)
   /\ exists ms ys m y,
        strings.Split "07-2025" "-" = [ms; ys]
        /\ strconv.Atoi ms = Some m /\ 1 <= m <= 12
        /\ strconv.Atoi ys = Some y /\ 2000 <= y <= 2100
        /\ sample.month 2025 7 = Date y m 1 0 0 0 0 UTC)
  /\ (year_out_of_range "01-2101"
      /\ run sample.pg
            (service.CalculateTotalCost None None "01-2101" "03-2101") sample.one_row
         = (Err (InvalidDateFormat "01-2101"), sample.one_row, [])).
Proof.
  assert (Hok : utils.ParseMonthYear "07-2025" = Ok (sample.month 2025 7))
    by reflexivity.
  assert (Hout : year_out_of_range "01-2101").
  { exists "01", "2101", 2101. split; [reflexivity | split; [reflexivity | lia]]. }
  destruct ParseMonthYear_year_2000_2100
    as (Hinv & _ & _ & _ & _ & _ & _ & Hcost & _).
  split; [split; [exact Hok | exact (Hinv _ _ Hok)] |].
  split; [exact Hout |].
  exact (Hcost postgres.Op _ postgres.World sample.pg sample.one_row
           None None "01-2101" "03-2101" Hout).
Defined.

(** ** CalculateTotalCost against CostSummary.Calculate *)

(** C1, at the input where the two paths part.  The table holds one
    open-ended subscription from January 2025 at price 100.  Over January to
    March 2025 [CalculateTotalCost] returns a summary whose total is 100, the
    price counted once by the aggregate query, while a [CostSummary] over the
    same period holding the same subscription calculates 300, the price
    once a month. *)
Theorem CalculateTotalCost_counts_price_once :
  let period :=
    DatePeriod.NewDatePeriod sample.jan2025 (utils.EndOfMonth sample.mar2025) in
  run sample.pg (service.CalculateTotalCost None None "01-2025" "03-2025")
      sample.one_row
  = (Ok (CostSummary.mk 100 period []), sample.one_row,
     [Called (postgres.RepoGetTotalCostForPeriod
                SubscriptionFilter.NewSubscriptionFilter period)])
  /\ fst (CostSummary.Calculate
            (CostSummary.AddSubscription (CostSummary.NewCostSummary period)
               sample.yandex))
     = 300.
Proof. split; vm_compute; reflexivity. Qed.

(** * Further properties of the domain model *)

(** ** DatePeriod *)

(** Two periods that overlap have an instant in common, the later of
    their two starts; the converse fails for periods that only meet at a
    boundary: each contains the boundary instant and they do not overlap. *)
Theorem Overlaps_common_instant :
  (forall a b : DatePeriod.t,
     DatePeriod.Validate a = None -> DatePeriod.Validate b = None ->
     DatePeriod.Overlaps a b = true ->
     let t := if Before (DatePeriod.from a) (DatePeriod.from b)
              then DatePeriod.from b else DatePeriod.from a in
     DatePeriod.Contains a t = true /\ DatePeriod.Contains b t = true)
  /\ (forall from mid to : Time,
        DatePeriod.Overlaps (DatePeriod.NewDatePeriod from mid)
                            (DatePeriod.NewDatePeriod mid to) = false
        /\ (unixNano from <= unixNano mid -> unixNano mid <= unixNano to ->
            DatePeriod.Contains (DatePeriod.NewDatePeriod from mid) mid = true
            /\ DatePeriod.Contains (DatePeriod.NewDatePeriod mid to) mid = true)).
Proof.
  split.
  - intros [fa ta] [fb tb].
    unfold DatePeriod.Validate, DatePeriod.Overlaps, DatePeriod.Contains,
      Before, After; cbn.
    intros Ha Hb Hov.
    destruct (Z.ltb_spec (unixNano ta) (unixNano fa)); [discriminate |].
    destruct (Z.ltb_spec (unixNano tb) (unixNano fb)); [discriminate |].
    apply andb_true_iff in Hov. destruct Hov as [H1 H2].
    apply Z.ltb_lt in H1, H2.
    destruct (Z.ltb_spec (unixNano fa) (unixNano fb)); split;
      apply andb_true_iff; split; apply negb_true_iff, Z.ltb_ge; lia.
  - intros from mid to.
    unfold DatePeriod.Overlaps, DatePeriod.Contains, DatePeriod.NewDatePeriod,
      Before, After; cbn.
    split.
    + rewrite (Z.ltb_irrefl (unixNano mid)). apply andb_false_r.
    + intros H1 H2. split; apply andb_true_iff; split;
        apply negb_true_iff, Z.ltb_ge; lia.
Qed.

Lemma Overlaps_common_instant_witness :
  let a := DatePeriod.NewDatePeriod sample.jan2025 sample.mar2025 in
  let b := DatePeriod.NewDatePeriod sample.feb2025 (utils.EndOfMonth sample.mar2025) in
  DatePeriod.Overlaps a b = true
  /\ DatePeriod.Contains a sample.feb2025 = true
  /\ DatePeriod.Contains b sample.feb2025 = true.
Proof.
  intros a b.
  assert (Ha : DatePeriod.Validate a = None) by reflexivity.
  assert (Hb : DatePeriod.Validate b = None) by reflexivity.
  assert (Hov : DatePeriod.Overlaps a b = true) by reflexivity.
  split; [exact Hov |].
  exact (proj1 Overlaps_common_instant a b Ha Hb Hov).
Defined.

(** A period passes [Validate] exactly when it contains some date, and
    exactly when its [Duration] is not negative: a reversed period contains
    nothing. *)
Theorem Validate_iff_inhabited (dp : DatePeriod.t) :
  (DatePeriod.Validate dp = None <-> exists d, DatePeriod.Contains dp d = true)
  /\ (DatePeriod.Validate dp = None <-> 0 <= DatePeriod.Duration dp).
Proof.
  destruct dp as [f t].
  unfold DatePeriod.Validate, DatePeriod.Contains, DatePeriod.Duration, Sub,
    Before, After, Int.min_int, Int.max_int; cbn.
  destruct (Z.ltb_spec (unixNano t) (unixNano f)) as [Hlt | Hge]; split; split.
  - discriminate.
  - intros [d Hd]. apply andb_true_iff in Hd. destruct Hd as [H1 H2].
    apply negb_true_iff, Z.ltb_ge in H1, H2. lia.
  - discriminate.
  - lia.
  - intros _. exists f. apply andb_true_iff; split;
      apply negb_true_iff, Z.ltb_ge; lia.
  - reflexivity.
  - lia.
  - reflexivity.
Qed.

Lemma Validate_iff_inhabited_witness :
  DatePeriod.Contains (DatePeriod.NewDatePeriod sample.jan2025 sample.mar2025)
    sample.feb2025 = true
  /\ DatePeriod.Validate (DatePeriod.NewDatePeriod sample.jan2025 sample.mar2025) = None.
Proof.
  assert (H : DatePeriod.Contains
                (DatePeriod.NewDatePeriod sample.jan2025 sample.mar2025)
                sample.feb2025 = true) by reflexivity.
  split; [exact H |].
  exact (proj2 (proj1 (Validate_iff_inhabited
                         (DatePeriod.NewDatePeriod sample.jan2025 sample.mar2025)))
           (ex_intro _ sample.feb2025 H)).
Defined.

(** ** Subscription *)

(** A subscription is never active and expired at the same date; from its
    start date on it is one or the other. *)
Theorem IsActive_IsExpired (s : Subscription.t) (d : Time) :
  (Subscription.IsExpired s d = true -> Subscription.IsActive s d = false)
  /\ (Before d (Subscription.startDate s) = false ->
      Subscription.IsActive s d = negb (Subscription.IsExpired s d)).
Proof.
  unfold Subscription.IsActive, Subscription.IsExpired.
  destruct (Subscription.endDate s) as [e |]; split.
  - intros ->. destruct (Before d (Subscription.startDate s)); reflexivity.
  - intros ->. destruct (After d e); reflexivity.
  - discriminate.
  - intros ->. reflexivity.
Qed.

Lemma IsActive_IsExpired_witness :
  Subscription.IsExpired sample.feb_only sample.mar2025 = true
  /\ Subscription.IsActive sample.feb_only sample.mar2025 = false.
Proof.
  assert (H : Subscription.IsExpired sample.feb_only sample.mar2025 = true)
    by reflexivity.
  split; [exact H |].
  exact (proj1 (IsActive_IsExpired sample.feb_only sample.mar2025) H).
Defined.

(** Whatever the subscription, a period that ends before its start date,
    a period that begins after its end date, and a period given backwards
    ([to] before [from]) all cost 0. *)
Theorem cost_zero_outside_lifetime (s : Subscription.t) (from to : Time) :
  (Before to (Subscription.startDate s) = true ->
   Subscription.CalculateCostForPeriod s from to = 0)
  /\ (forall e, Subscription.endDate s = Some e -> After from e = true ->
             Subscription.CalculateCostForPeriod s from to = 0)
  /\ (Before to from = true ->
      Subscription.CalculateCostForPeriod s from to = 0).
Proof.
  unfold Subscription.CalculateCostForPeriod, Subscription.IsActive, Before, After.
  repeat split.
  - intros Hto. apply Z.ltb_lt in Hto. rewrite (proj2 (Z.ltb_lt _ _) Hto).
    destruct (Z.ltb_spec (unixNano from) (unixNano (Subscription.startDate s)));
      [reflexivity |].
    destruct (Subscription.endDate s) as [e |].
    + destruct (Z.ltb_spec (unixNano e) (unixNano from)); [reflexivity |].
      cbn [negb andb].
      destruct (Z.ltb_spec (unixNano (Subscription.startDate s)) (unixNano from));
        destruct (Z.ltb_spec (unixNano e) (unixNano to)); cbn [unixNano];
        match goal with
        | |- (if ?a <? ?b then _ else _) = _ =>
            destruct (Z.ltb_spec a b); [reflexivity | lia]
        end.
    + cbn [negb andb].
      destruct (Z.ltb_spec (unixNano (Subscription.startDate s)) (unixNano from));
        match goal with
        | |- (if ?a <? ?b then _ else _) = _ =>
            destruct (Z.ltb_spec a b); [reflexivity | lia]
        end.
  - intros e He Hfrom. rewrite He. apply Z.ltb_lt in Hfrom.
    rewrite (proj2 (Z.ltb_lt _ _) Hfrom).
    destruct (Z.ltb_spec (unixNano from) (unixNano (Subscription.startDate s)));
      cbn [negb andb].
    + destruct (Z.ltb_spec (unixNano to) (unixNano (Subscription.startDate s)));
        [reflexivity |].
      destruct (Z.ltb_spec (unixNano e) (unixNano to)); [reflexivity |].
      cbn [negb andb].
      destruct (Z.ltb_spec (unixNano (Subscription.startDate s)) (unixNano from));
        [lia |].
      destruct (Z.ltb_spec (unixNano e) (unixNano to)); [lia |].
      destruct (Z.ltb_spec (unixNano to) (unixNano (Subscription.startDate s)));
        [reflexivity | lia].
    + destruct (Z.ltb_spec (unixNano to) (unixNano (Subscription.startDate s)));
        [reflexivity |].
      destruct (Z.ltb_spec (unixNano e) (unixNano to)); [reflexivity |].
      cbn [negb andb].
      destruct (Z.ltb_spec (unixNano (Subscription.startDate s)) (unixNano from));
        destruct (Z.ltb_spec (unixNano e) (unixNano to)); try lia;
        match goal with
        | |- (if ?a <? ?b then _ else _) = _ =>
            destruct (Z.ltb_spec a b); [reflexivity | lia]
        end.
  - intros Hrev. apply Z.ltb_lt in Hrev.
    destruct (Z.ltb_spec (unixNano from) (unixNano (Subscription.startDate s)));
      destruct (Z.ltb_spec (unixNano to) (unixNano (Subscription.startDate s)));
      destruct (Subscription.endDate s) as [e |]; cbn [negb andb];
      try reflexivity;
      repeat match goal with
        | |- context [if ?a <? ?b then _ else _] =>
            destruct (Z.ltb_spec a b); cbn [negb andb unixNano]
        end; try reflexivity; lia.
Qed.

Lemma cost_zero_outside_lifetime_witness :
  (Before sample.jan2025 (Subscription.startDate sample.feb_only) = true
   /\ Subscription.CalculateCostForPeriod sample.feb_only
        sample.dec2024 sample.jan2025 = 0)
  /\ (After sample.mar2025 (utils.EndOfMonth sample.feb2025) = true
      /\ Subscription.CalculateCostForPeriod sample.feb_only
           sample.mar2025 (utils.EndOfMonth sample.mar2025) = 0)
  /\ (Before sample.jan2025 sample.mar2025 = true
      /\ Subscription.CalculateCostForPeriod sample.yandex
           sample.mar2025 sample.jan2025 = 0).
Proof.
  assert (H1 : Before sample.jan2025 (Subscription.startDate sample.feb_only) = true)
    by reflexivity.
  assert (H2 : After sample.mar2025 (utils.EndOfMonth sample.feb2025) = true)
    by reflexivity.
  assert (H3 : Before sample.jan2025 sample.mar2025 = true) by reflexivity.
  split; [split; [exact H1 |] | split; [split; [exact H2 |] | split; [exact H3 |]]].
  - exact (proj1 (cost_zero_outside_lifetime sample.feb_only
                    sample.dec2024 sample.jan2025) H1).
  - exact (proj1 (proj2 (cost_zero_outside_lifetime sample.feb_only
                           sample.mar2025 (utils.EndOfMonth sample.mar2025)))
             (utils.EndOfMonth sample.feb2025) eq_refl H2).
  - exact (proj2 (proj2 (cost_zero_outside_lifetime sample.yandex
                           sample.mar2025 sample.jan2025)) H3).
Defined.

(** ** CostSummary *)

Lemma wrap_add_l (a b : Z) : Int.wrap (Int.wrap a + b) = Int.wrap (a + b).
Proof.
  unfold Int.wrap. f_equal.
  replace ((a + 2 ^ 63) mod 2 ^ 64 - 2 ^ 63 + b + 2 ^ 63)
    with ((a + 2 ^ 63) mod 2 ^ 64 + b) by lia.
  rewrite Zplus_mod_idemp_l. f_equal. lia.
Qed.

Lemma wrap_small (z : Z) : Int.in_range z = true -> Int.wrap z = z.
Proof.
  unfold Int.in_range, Int.wrap, Int.min_int, Int.max_int. intros H.
  apply andb_true_iff in H. destruct H as [H1 H2].
  apply Z.leb_le in H1, H2.
  rewrite Z.mod_small by lia. lia.
Qed.

(** The mathematical sum of the costs of [subs] over [p]. *)
Lemma sum_costs_fold (p : DatePeriod.t) (subs : list Subscription.t) (a : Z) :
  fold_left
    (fun total sub =>
       Int.add total
         (Subscription.CalculateCostForPeriod sub (DatePeriod.From p) (DatePeriod.To p)))
    subs (Int.wrap a)
  = Int.wrap (a + fold_right Z.add 0
                    (map (fun sub => Subscription.CalculateCostForPeriod sub
                                       (DatePeriod.From p) (DatePeriod.To p)) subs)).
Proof.
  revert a. induction subs as [| s subs IH]; intros a; cbn [fold_left map fold_right].
  - f_equal. lia.
  - unfold Int.add at 2. rewrite wrap_add_l, IH. f_equal. lia.
Qed.

Lemma sum_costs_wrap (p : DatePeriod.t) (subs : list Subscription.t) :
  CostSummary.sum_costs p subs
  = Int.wrap (fold_right Z.add 0
                (map (fun sub => Subscription.CalculateCostForPeriod sub
                                   (DatePeriod.From p) (DatePeriod.To p)) subs)).
Proof.
  unfold CostSummary.sum_costs.
  change 0 with (Int.wrap 0) at 1. rewrite sum_costs_fold. reflexivity.
Qed.

(** [Calculate] after [AddSubscription] is the earlier total plus the cost
    of the added subscription ([int] addition); the total it returns is the
    one it stores, and it does not depend on the total held before. *)
Theorem Calculate_AddSubscription (cs : CostSummary.t) (sub : Subscription.t) :
  fst (CostSummary.Calculate (CostSummary.AddSubscription cs sub))
  = Int.add (fst (CostSummary.Calculate cs))
      (Subscription.CalculateCostForPeriod sub
         (DatePeriod.From (CostSummary.Period cs))
         (DatePeriod.To (CostSummary.Period cs)))
  /\ CostSummary.TotalCost (snd (CostSummary.Calculate (CostSummary.AddSubscription cs sub)))
     = fst (CostSummary.Calculate (CostSummary.AddSubscription cs sub))
  /\ (forall stale,
        fst (CostSummary.Calculate (CostSummary.SetTotalCost cs stale))
        = fst (CostSummary.Calculate cs)).
Proof.
  repeat split.
  unfold CostSummary.Calculate, CostSummary.AddSubscription, CostSummary.sum_costs,
    CostSummary.Period; cbn [fst CostSummary.period CostSummary.subscriptions].
  rewrite fold_left_app. reflexivity.
Qed.

(** The total of [Calculate] is the sum of the costs wrapped once to
    [int], so it does not depend on the order in which the subscriptions
    were added. *)
Theorem Calculate_order_irrelevant
    (total : Z) (p : DatePeriod.t) (subs subs' : list Subscription.t) :
  Permutation subs subs' ->
  fst (CostSummary.Calculate (CostSummary.mk total p subs))
  = fst (CostSummary.Calculate (CostSummary.mk total p subs')).
Proof.
  intros Hperm. unfold CostSummary.Calculate; cbn [fst CostSummary.period
    CostSummary.subscriptions].
  rewrite !sum_costs_wrap. f_equal.
  induction Hperm; cbn [map fold_right]; lia.
Qed.

Lemma Calculate_order_irrelevant_witness :
  fst (CostSummary.Calculate
         (CostSummary.mk 0 (DatePeriod.NewDatePeriod sample.jan2025 sample.mar2025)
            [sample.yandex; sample.feb_instant]))
  = fst (CostSummary.Calculate
           (CostSummary.mk 0 (DatePeriod.NewDatePeriod sample.jan2025 sample.mar2025)
              [sample.feb_instant; sample.yandex])).
Proof.
  apply Calculate_order_irrelevant. apply perm_swap.
Defined.
